(** * ChArUco camera calibration: the capture-and-calibration pipeline

    A shallow embedding of [charuco.cpp]: the parameter writer
    [saveCameraParams], the interactive capture loop and the two-stage
    calibration of [main].  The OpenCV routines the program calls (marker
    detection, corner interpolation, the two calibration solvers, file
    storage) are external; they are gathered in a record [World] of
    functions and every call that matters is logged as an [event]. *)

From Stdlib Require Import ZArith List String Bool Lia.
From Stdlib Require Import PrimFloat Uint63 SpecFloat FloatOps.
From stdpp Require Import base list.
Import ListNotations.
Open Scope string_scope.
Open Scope list_scope.
Open Scope Z_scope.

(** ** Machine integers *)

(** A [w]-bit two's complement value: the result of a narrowing cast. *)
Definition wrap (w : Z) (z : Z) : Z := (z + 2 ^ (w - 1)) mod 2 ^ w - 2 ^ (w - 1).

(** [int] is 32 bits wide, [char] is a signed byte. *)
Definition to_int (z : Z) : Z := wrap 32 z.
Definition to_char (z : Z) : Z := wrap 8 z.

(** [(int)v.size()] *)
Definition int_of_size (n : nat) : Z := to_int (Z.of_nat n).

(** Modelled from the spec: the calibration flags are "a set of independent
    boolean solver policies"; their constants are declared in OpenCV's
    calib3d header, which is not part of the source.  They are the four
    lowest bits there. *)
Definition CALIB_USE_INTRINSIC_GUESS : Z := 1.
Definition CALIB_FIX_ASPECT_RATIO : Z := 2.
Definition CALIB_FIX_PRINCIPAL_POINT : Z := 4.
Definition CALIB_ZERO_TANGENT_DIST : Z := 8.

(** [flags & bit] used as a condition. *)
Definition flag_set (flags bit : Z) : bool := negb (Z.land flags bit =? 0).

(** ** Floating point values *)

(** [double] is binary64, Rocq's primitive [float]. *)
Definition double : Set := float.

(** Conversion of an [int] to [double]; it is exact. *)
Definition double_of_int (z : Z) : double :=
  match z with
  | Z0 => 0%float
  | Zpos _ => PrimFloat.of_uint63 (Uint63.of_Z z)
  | Zneg p => PrimFloat.opp (PrimFloat.of_uint63 (Uint63.of_Z (Zpos p)))
  end.

(** [(float)d]: rounding to binary32 (24 bits of precision, maximal
    exponent 128); the result is held in a [double]. *)
Definition float_of_double (d : double) : double :=
  SF2Prim
    match Prim2SF d with
    | S754_finite s m e => binary_normalize 24 128 (if s then Zneg m else Zpos m) e s
    | x => x
    end.

(** ** OpenCV data *)

Record Size := mkSize { width : Z; height : Z }.

(** [Point2f] *)
Record Point2f := mkPoint { pt_x : double; pt_y : double }.

(** The corners of one marker, [vector<Point2f>]. *)
Definition MarkerCorners : Type := list Point2f.

(** A captured frame: its dimensions and pixel data. *)
Record Image := mkImage { img_size : Size; img_data : list Z }.

(** A [Mat] of doubles (camera matrix, distortion coefficients), by rows.
    The default constructed, empty [Mat] is [[]]. *)
Definition Mat : Type := list (list double).

(** The [Mat]s filled by corner interpolation: board corners and their
    identifiers; [total()] is the length. *)
Definition CharucoCorners : Type := list Point2f.
Definition CharucoIds : Type := list Z.

(** [Mat::eye(rows, cols, CV_64F)] *)
Definition Mat_eye (rows cols : nat) : Mat :=
  map (fun i => map (fun j => if Nat.eqb i j then 1%float else 0%float) (seq 0 cols))
      (seq 0 rows).

(** [m.at<double>(i, j)] read; [None] outside the matrix. *)
Definition Mat_at (m : Mat) (i j : nat) : option double :=
  match m !! i with
  | Some row => row !! j
  | None => None
  end.

(** [m.at<double>(i, j) = v]; [main] only assigns inside a 3x3 matrix. *)
Definition Mat_set (m : Mat) (i j : nat) (v : double) : Mat :=
  alter (fun row => <[j := v]> row) i m.

(** ** Observable behaviour *)

(** What is streamed to [cout] and [cerr]. *)
Inductive out_item :=
| OStr (s : string)
| OSize (s : Size)
| ODouble (d : double)
| OEndl.

(** A value streamed into a [FileStorage]. *)
Inductive fs_value :=
| FsString (s : string)
| FsInt (z : Z)
| FsFloat (f : double)
| FsDouble (d : double)
| FsMat (m : Mat).

Inductive event :=
| Cerr (items : list out_item)
| Cout (items : list out_item)
| ImWrite (filename : string)
| FsOpen (filename : string)
| FsPut (filename key : string) (v : fs_value)
| CallCalibrateCameraAruco
    (corners : list MarkerCorners) (ids counter : list Z)
    (imgSize : Size) (cameraMatrix distCoeffs : Mat) (flags : Z)
| CallCalibrateCameraCharuco
    (charucoCorners : list CharucoCorners) (charucoIds : list CharucoIds)
    (imgSize : Size) (cameraMatrix distCoeffs : Mat) (flags : Z).

(** ** Programs: a trace of events and how the computation ended *)

Inductive result (A : Type) :=
| Val (a : A)          (* ran to the end of the block with value [a] *)
| Return (code : Z)    (* [return code;] out of [main] *)
| Undefined.           (* undefined behaviour: a vector indexed out of range *)
Arguments Val {A} a.
Arguments Return {A} code.
Arguments Undefined {A}.

Definition Prog (A : Type) : Type := list event * result A.

Definition prog_ret {A} (a : A) : Prog A := ([], Val a).

Definition prog_bind {A B} (f : A -> Prog B) (m : Prog A) : Prog B :=
  match m with
  | (t, Val a) => let '(t', r) := f a in (t ++ t', r)
  | (t, Return code) => (t, Return code)
  | (t, Undefined) => (t, Undefined)
  end.

#[global] Instance Prog_ret : MRet Prog := @prog_ret.
#[global] Instance Prog_bind : MBind Prog := @prog_bind.

Definition emit (e : event) : Prog unit := ([e], Val tt).
Definition return_ {A} (code : Z) : Prog A := ([], Return code).
Definition undefined {A} : Prog A := ([], Undefined).

Definition trace {A} (p : Prog A) : list event := fst p.
Definition outcome {A} (p : Prog A) : result A := snd p.

(** [v[i]] on a vector. *)
Definition at_ {A} (v : list A) (i : nat) : Prog A :=
  match v !! i with
  | Some x => mret x
  | None => undefined
  end.

(** [for (i = 0; i < n; i++) body], threading the variables the body
    assigns. *)
Fixpoint for_each {S} (idx : list nat) (body : nat -> S -> Prog S) (s : S) : Prog S :=
  match idx with
  | [] => mret s
  | i :: rest => s' ← body i s; for_each rest body s'
  end.

Definition for_upto {S} (n : nat) (body : nat -> S -> Prog S) (s : S) : Prog S :=
  for_each (seq 0 n) body s.

(** ** The world outside the program *)

Record World := mkWorld {
  (* [FileStorage(filename, READ).isOpened()] *)
  can_read : string -> bool;
  (* [FileStorage(filename, WRITE).isOpened()] *)
  can_write : string -> bool;
  (* [strftime(.., "%c", localtime(..))] of the current time *)
  local_time : string;
  (* [detectMarkers]: corners and ids of the markers found in an image *)
  detectMarkers : Image -> list MarkerCorners * list Z;
  (* [refineDetectedMarkers]: corners and ids are in/out arguments *)
  refineDetectedMarkers :
    Image -> list MarkerCorners -> list Z -> list MarkerCorners * list Z;
  (* [interpolateCornersCharuco] with camera matrix and distortion *)
  interpolateCornersCharuco :
    list MarkerCorners -> list Z -> Image -> Mat -> Mat -> CharucoCorners * CharucoIds;
  (* [calibrateCameraAruco]: camera matrix and distortion coefficients are
     in/out arguments, the reprojection error is returned *)
  calibrateCameraAruco :
    list MarkerCorners -> list Z -> list Z -> Size -> Mat -> Mat -> Z -> Mat * Mat * double;
  (* [calibrateCameraCharuco], likewise *)
  calibrateCameraCharuco :
    list CharucoCorners -> list CharucoIds -> Size -> Mat -> Mat -> Z -> Mat * Mat * double
}.

Section Program.

Variable W : World.

(** ** [readDetectorParameters]

    The fields read configure the detector, which is part of [W]; what the
    caller sees is whether the file could be opened. *)
Definition readDetectorParameters (filename : string) : Prog bool :=
  if negb (can_read W filename) then mret false else mret true.

(** ** [saveCameraParams] *)

Definition flags_text (flags : Z) : string :=
  String.concat EmptyString
    [ "flags: ";
      if flag_set flags CALIB_USE_INTRINSIC_GUESS then "+use_intrinsic_guess"
      else EmptyString;
      if flag_set flags CALIB_FIX_ASPECT_RATIO then "+fix_aspectRatio"
      else EmptyString;
      if flag_set flags CALIB_FIX_PRINCIPAL_POINT then "+fix_principal_point"
      else EmptyString;
      if flag_set flags CALIB_ZERO_TANGENT_DIST then "+zero_tangent_dist"
      else EmptyString ].

Definition saveCameraParams (filename : string) (imageSize : Size)
    (aspectRatio : double) (flags : Z) (cameraMatrix distCoeffs : Mat)
    (totalAvgErr : double) : Prog bool :=
  if negb (can_write W filename) then mret false else
  emit (FsOpen filename);;
  let buf := local_time W in
  emit (FsPut filename "calibration_time" (FsString buf));;
  emit (FsPut filename "image_width" (FsInt (width imageSize)));;
  emit (FsPut filename "image_height" (FsInt (height imageSize)));;
  (if flag_set flags CALIB_FIX_ASPECT_RATIO
   then emit (FsPut filename "aspectRatio" (FsFloat aspectRatio))
   else mret tt);;
  (* the text is formatted into [buf], and [buf] is not used again *)
  let buf := if negb (flags =? 0) then flags_text flags else buf in
  emit (FsPut filename "flags" (FsInt flags));;
  emit (FsPut filename "camera_matrix" (FsMat cameraMatrix));;
  emit (FsPut filename "distortion_coefficients" (FsMat distCoeffs));;
  emit (FsPut filename "avg_reprojection_error" (FsDouble totalAvgErr));;
  mret true.

(** ** The data collected from the frames

    [main] keeps three parallel vectors and the size of the last frame
    added. *)
Record Store := mkStore {
  allCorners : list (list MarkerCorners);
  allIds : list (list Z);
  allImgs : list Image;
  imgSize : Size
}.

Definition empty_store : Store :=
  {| allCorners := []; allIds := []; allImgs := []; imgSize := mkSize 0 0 |}.

Definition newline : string := String (Ascii.ascii_of_nat 10) EmptyString.

(** ** The capture loop, [while(cap.grab())]

    [cam] lists the frames the camera delivers, each with the value
    [waitKey] returns while it is shown; [grab] fails when the list is
    exhausted.  Drawing and [imshow] only display and are left out, and so
    is the interpolation done for the overlay. *)
Fixpoint capture (refineStrategy : bool) (cam : list (Image * Z)) (st : Store)
    : Prog Store :=
  match cam with
  | [] => mret st
  | (image, pressed) :: cam' =>
    let '(corners, ids) := detectMarkers W image in
    let '(corners, ids) :=
      if refineStrategy then refineDetectedMarkers W image corners ids
      else (corners, ids) in
    let key := to_char pressed in
    if key =? 27 then mret st else
    if (key =? 99) && (int_of_size (length ids) >? 0) then
      emit (Cout [OStr "Frame captured"; OEndl]);;
      let st := {| allCorners := allCorners st ++ [corners];
                   allIds := allIds st ++ [ids];
                   allImgs := allImgs st ++ [image];
                   imgSize := img_size image |} in
      emit (Cout [OSize (imgSize st); OStr newline]);;
      capture refineStrategy cam' st
    else capture refineStrategy cam' st
  end.

(** ** Stage A: the data for the marker calibration

    The counters of the two loops are [unsigned int]; they do not wrap on a
    vector of fewer than 2^32 elements, and the loops of the model range
    over [nat]. *)
Definition concatenate (allCorners : list (list MarkerCorners)) (allIds : list (list Z))
    : Prog (list MarkerCorners * list Z * list Z) :=
  for_upto (length allCorners)
    (fun i '(allCornersConcatenated, allIdsConcatenated, markerCounterPerFrame) =>
       corners_i ← at_ allCorners i;
       let markerCounterPerFrame :=
         markerCounterPerFrame ++ [int_of_size (length corners_i)] in
       '(allCornersConcatenated, allIdsConcatenated) ←
         for_upto (length corners_i)
           (fun j '(allCornersConcatenated, allIdsConcatenated) =>
              corner ← at_ corners_i j;
              ids_i ← at_ allIds i;
              id ← at_ ids_i j;
              mret (allCornersConcatenated ++ [corner], allIdsConcatenated ++ [id]))
           (allCornersConcatenated, allIdsConcatenated);
       mret (allCornersConcatenated, allIdsConcatenated, markerCounterPerFrame))
    ([], [], []).

(** ** Stage B: the data for the board calibration *)
Definition interpolate_frames (st : Store) (nFrames : Z) (cameraMatrix distCoeffs : Mat)
    : Prog (list CharucoCorners * list CharucoIds * list Image) :=
  for_upto (Z.to_nat nFrames)
    (fun i '(allCharucoCorners, allCharucoIds, filteredImages) =>
       corners_i ← at_ (allCorners st) i;
       ids_i ← at_ (allIds st) i;
       img_i ← at_ (allImgs st) i;
       let '(currentCharucoCorners, currentCharucoIds) :=
         interpolateCornersCharuco W corners_i ids_i img_i cameraMatrix distCoeffs in
       mret (allCharucoCorners ++ [currentCharucoCorners],
             allCharucoIds ++ [currentCharucoIds],
             filteredImages ++ [img_i]))
    ([], [], []).

(** ** The calibration: [main] from the end of the capture loop

    The final loop over [filteredImages] only displays the frames and is
    left out. *)
Definition calibrate (outputFile : string) (calibrationFlags : Z) (aspectRatio : double)
    (st : Store) : Prog Z :=
  if int_of_size (length (allIds st)) <? 1 then
    emit (Cerr [OStr "Not enough captures for calibration"; OEndl]);;
    return_ 0
  else
  let cameraMatrix : Mat := [] in
  let distCoeffs : Mat := [] in
  let cameraMatrix :=
    if flag_set calibrationFlags CALIB_FIX_ASPECT_RATIO
    then Mat_set (Mat_eye 3 3) 0 0 aspectRatio
    else cameraMatrix in
  '(allCornersConcatenated, allIdsConcatenated, markerCounterPerFrame) ←
    concatenate (allCorners st) (allIds st);
  emit (CallCalibrateCameraAruco allCornersConcatenated allIdsConcatenated
          markerCounterPerFrame (imgSize st) cameraMatrix distCoeffs calibrationFlags);;
  let '(cameraMatrix, distCoeffs, arucoRepErr) :=
    calibrateCameraAruco W allCornersConcatenated allIdsConcatenated
      markerCounterPerFrame (imgSize st) cameraMatrix distCoeffs calibrationFlags in
  let nFrames := int_of_size (length (allCorners st)) in
  '(allCharucoCorners, allCharucoIds, filteredImages) ←
    interpolate_frames st nFrames cameraMatrix distCoeffs;
  if (length allCharucoCorners <? 4)%nat then
    emit (Cerr [OStr "Not enough corners for calibration"; OEndl]);;
    return_ 0
  else
  emit (CallCalibrateCameraCharuco allCharucoCorners allCharucoIds (imgSize st)
          cameraMatrix distCoeffs calibrationFlags);;
  let '(cameraMatrix, distCoeffs, repError) :=
    calibrateCameraCharuco W allCharucoCorners allCharucoIds (imgSize st)
      cameraMatrix distCoeffs calibrationFlags in
  saveOk ← saveCameraParams outputFile (imgSize st) (float_of_double aspectRatio)
             calibrationFlags cameraMatrix distCoeffs repError;
  if negb saveOk then
    emit (Cerr [OStr "Cannot save output file"; OEndl]);;
    return_ 0
  else
  emit (Cout [OStr "Rep Error: "; ODouble repError; OEndl]);;
  emit (Cout [OStr "Rep Error Aruco: "; ODouble arucoRepErr; OEndl]);;
  emit (Cout [OStr "Calibration saved to "; OStr outputFile; OEndl]);;
  return_ 0.

(** ** [main] *)

(** [double aspectRatio = (16 / 9);]: the quotient of two [int]s, which
    truncates, converted to [double]. *)
Definition aspectRatio : double := double_of_int (Z.quot 16 9).

Definition main (cam : list (Image * Z)) : Prog Z :=
  let outputFile := "outFile.txt" in
  let calibrationFlags := 0 in
  let calibrationFlags := Z.lor calibrationFlags CALIB_FIX_ASPECT_RATIO in
  ok ← readDetectorParameters "detectIn.yml";
  if negb ok then emit (Cerr [OStr "Err DetectIn"]);; return_ 0 else
  let refineStrategy := false in
  emit (ImWrite "charImg.png");;
  st ← capture refineStrategy cam empty_store;
  calibrate outputFile calibrationFlags aspectRatio st.

End Program.

(** ** The display of the board corners: the last loop of [main]

    What [imshow] is given for a frame: the image, and the board corners
    and identifiers drawn over it when there are any. *)
Record Shown := mkShown {
  shown_image : Image;
  shown_corners : option (CharucoCorners * CharucoIds)
}.

(** [for (frame = 0; frame < filteredImages.size(); frame++)], with [n]
    rounds left.  [keys] lists what [waitKey] returns round after round;
    past its end no key is pressed and [waitKey] returns -1.  [None] is
    undefined behaviour, a vector indexed out of range. *)
Fixpoint show_loop (n frame : nat) (filteredImages : list Image) (allIds : list (list Z))
    (allCharucoCorners : list CharucoCorners) (allCharucoIds : list CharucoIds)
    (keys : list Z) (shown : list Shown) : option (list Shown) :=
  match n with
  | O => Some shown
  | S n' =>
    imageCopy ← filteredImages !! frame;
    ids ← allIds !! frame;
    drawn ←
      (if int_of_size (length ids) >? 0 then
         corners ← allCharucoCorners !! frame;
         if (0 <? length corners)%nat then
           cids ← allCharucoIds !! frame;
           Some (Some (corners, cids))
         else Some None
       else Some None);
    let shown := shown ++ [mkShown imageCopy drawn] in
    let key := to_char (hd (-1) keys) in
    if key =? 27 then Some shown
    else show_loop n' (S frame) filteredImages allIds allCharucoCorners allCharucoIds
           (tl keys) shown
  end.

Definition show_corners (showChessboardCorners : bool) (filteredImages : list Image)
    (allIds : list (list Z)) (allCharucoCorners : list CharucoCorners)
    (allCharucoIds : list CharucoIds) (keys : list Z) : option (list Shown) :=
  if showChessboardCorners then
    show_loop (length filteredImages) 0 filteredImages allIds allCharucoCorners
      allCharucoIds keys []
  else Some [].

(** * The vocabulary of the properties *)

(** ** Well-formed stores *)

(** Every frame has as many identifiers as marker corner sets. *)
Definition ids_agree (cs : list (list MarkerCorners)) (ids : list (list Z)) : Prop :=
  Forall2 (fun c i => length c = length i) cs ids.

(** The marker count of every frame fits an [int]. *)
Definition counts_fit (cs : list (list MarkerCorners)) : Prop :=
  Forall (fun c => Z.of_nat (length c) < 2 ^ 31) cs.

(** The three vectors are aligned and the number of frames fits an [int]. *)
Definition store_ok (st : Store) : Prop :=
  ids_agree (allCorners st) (allIds st)
  /\ length (allImgs st) = length (allCorners st)
  /\ Z.of_nat (length (allCorners st)) < 2 ^ 31.

(** ** Stage A: counts and flat sequences *)

(** The counts recorded for the frames: [(int)allCorners[i].size()]. *)
Definition marker_counts (cs : list (list MarkerCorners)) : list Z :=
  map (fun c => int_of_size (length c)) cs.

(** The sum of the entries of a count sequence. *)
Definition sum_counts (counts : list Z) : Z := foldr Z.add 0 counts.

(** Modelled from the spec: the re-segmentation of a flat sequence "back
    into per-frame groups" by the per-frame counts.  It is done inside the
    calibration solver, which is not part of the source: the first count
    many entries form the first group, and so on. *)
Fixpoint resegment {A} (counts : list Z) (flat : list A) : list (list A) :=
  match counts with
  | [] => []
  | c :: counts' =>
    take (Z.to_nat c) flat :: resegment counts' (drop (Z.to_nat c) flat)
  end.

(** ** The diagnostics of [main], by the names the specification gives them *)

Definition NoDataError : event :=
  Cerr [OStr "Not enough captures for calibration"; OEndl].
Definition InsufficientCalibrationData : event :=
  Cerr [OStr "Not enough corners for calibration"; OEndl].
Definition PersistenceError : event :=
  Cerr [OStr "Cannot save output file"; OEndl].

(** Kinds of events. *)
Definition is_cerr (e : event) : bool :=
  match e with Cerr _ => true | _ => false end.

Definition is_charuco_call (e : event) : bool :=
  match e with CallCalibrateCameraCharuco _ _ _ _ _ _ => true | _ => false end.

Definition is_solver_call (e : event) : bool :=
  match e with
  | CallCalibrateCameraAruco _ _ _ _ _ _ _ => true
  | CallCalibrateCameraCharuco _ _ _ _ _ _ => true
  | _ => false
  end.

(** An event on the file [out]: it is created, or a field is written. *)
Definition writes_file (out : string) (e : event) : bool :=
  match e with
  | FsOpen f => String.eqb f out
  | FsPut f _ _ => String.eqb f out
  | _ => false
  end.

(** ** Stage B and the calibration in closed form *)

(** The committed frames, in the order they were added. *)
Definition frames (st : Store) : list (list MarkerCorners * list Z * Image) :=
  zip (zip (allCorners st) (allIds st)) (allImgs st).

(** The frames whose interpolation is not empty. *)
Definition nonempty_frames (rs : list (CharucoCorners * CharucoIds)) : nat :=
  length (List.filter (fun r => negb (length r.1 =? 0)%nat) rs).

(** The camera matrix before the first solver call. *)
Definition seeded_matrix (flags : Z) (r : double) : Mat :=
  if flag_set flags CALIB_FIX_ASPECT_RATIO then Mat_set (Mat_eye 3 3) 0 0 r else [].

(** The call of the marker solver on the store [st]. *)
Definition stageA_call (flags : Z) (r : double) (st : Store) : event :=
  CallCalibrateCameraAruco (concat (allCorners st)) (concat (allIds st))
    (marker_counts (allCorners st)) (imgSize st) (seeded_matrix flags r) [] flags.

(** The only text [saveCameraParams] writes is the time stamp. *)
Definition no_text_but_time (e : event) : Prop :=
  forall f k s, e = FsPut f k (FsString s) -> k = "calibration_time".

(** What the aspect ratio [r] is used for: every marker calibration
    starts from the matrix seeded with it, and the field written for it
    holds it, narrowed to [float]. *)
Definition aspect_ratio_used (flags : Z) (r : double) (e : event) : Prop :=
  match e with
  | CallCalibrateCameraAruco _ _ _ _ K _ _ => K = seeded_matrix flags r
  | FsPut _ k v => k = "aspectRatio" -> v = FsFloat (float_of_double r)
  | _ => True
  end.

Section Vocabulary.

Variable W : World.

(** The events of a successful [saveCameraParams]. *)
Definition save_events (out : string) (sz : Size) (a : double) (flags : Z)
    (K D : Mat) (err : double) : list event :=
  [ FsOpen out;
    FsPut out "calibration_time" (FsString (local_time W));
    FsPut out "image_width" (FsInt (width sz));
    FsPut out "image_height" (FsInt (height sz)) ]
  ++ (if flag_set flags CALIB_FIX_ASPECT_RATIO
      then [FsPut out "aspectRatio" (FsFloat a)] else [])
  ++ [ FsPut out "flags" (FsInt flags);
       FsPut out "camera_matrix" (FsMat K);
       FsPut out "distortion_coefficients" (FsMat D);
       FsPut out "avg_reprojection_error" (FsDouble err) ].

(** Interpolation on one frame, with camera matrix [K] and distortion [D]. *)
Definition interpolate (K D : Mat) (f : list MarkerCorners * list Z * Image)
    : CharucoCorners * CharucoIds :=
  interpolateCornersCharuco W f.1.1 f.1.2 f.2 K D.

(** One interpolation result per committed frame, empty or not. *)
Definition interpolated (K D : Mat) (st : Store) : list (CharucoCorners * CharucoIds) :=
  interpolate K D <$> frames st.

(** What the marker calibration leaves: camera matrix, distortion
    coefficients and its reprojection error. *)
Definition bootstrap (flags : Z) (r : double) (st : Store) : Mat * Mat * double :=
  calibrateCameraAruco W (concat (allCorners st)) (concat (allIds st))
    (marker_counts (allCorners st)) (imgSize st) (seeded_matrix flags r) [] flags.

(** The interpolation of every frame with what the marker calibration
    left. *)
Definition board_corners (flags : Z) (r : double) (st : Store)
    : list (CharucoCorners * CharucoIds) :=
  interpolated (bootstrap flags r st).1.1 (bootstrap flags r st).1.2 st.

(** The call of the board solver, and what it leaves. *)
Definition stageB_call (flags : Z) (r : double) (st : Store) : event :=
  CallCalibrateCameraCharuco (board_corners flags r st).*1 (board_corners flags r st).*2
    (imgSize st) (bootstrap flags r st).1.1 (bootstrap flags r st).1.2 flags.

Definition refined (flags : Z) (r : double) (st : Store) : Mat * Mat * double :=
  calibrateCameraCharuco W (board_corners flags r st).*1 (board_corners flags r st).*2
    (imgSize st) (bootstrap flags r st).1.1 (bootstrap flags r st).1.2 flags.

(** The events after the board solver when the file can be written. *)
Definition report_events (out : string) (flags : Z) (r : double) (st : Store)
    : list event :=
  save_events out (imgSize st) (float_of_double r) flags
    (refined flags r st).1.1 (refined flags r st).1.2 (refined flags r st).2
  ++ [ Cout [OStr "Rep Error: "; ODouble (refined flags r st).2; OEndl];
       Cout [OStr "Rep Error Aruco: "; ODouble (bootstrap flags r st).2; OEndl];
       Cout [OStr "Calibration saved to "; OStr out; OEndl] ].

(** The events of the calibration of a well-formed store. *)
Definition calibrate_trace (out : string) (flags : Z) (r : double) (st : Store)
    : list event :=
  if (length (allCorners st) =? 0)%nat then [NoDataError]
  else if (length (allCorners st) <? 4)%nat then
    [stageA_call flags r st; InsufficientCalibrationData]
  else if can_write W out then
    stageA_call flags r st :: stageB_call flags r st :: report_events out flags r st
  else [stageA_call flags r st; stageB_call flags r st; PersistenceError].

(** The contract of the detector: one identifier per marker found. *)
Definition detector_ok : Prop :=
  forall img, length (detectMarkers W img).1 = length (detectMarkers W img).2.

(** The frames in the store when the capture loop ends. *)
Definition committed (cam : list (Image * Z)) : Store :=
  match outcome (capture W false cam empty_store) with
  | Val st => st
  | _ => empty_store
  end.

End Vocabulary.

(** ** The capture loop *)

(** What the loop works with for a frame: the markers detected, refined or
    not. *)
Definition detected (W : World) (refineStrategy : bool) (image : Image)
    : list MarkerCorners * list Z :=
  let '(corners, ids) := detectMarkers W image in
  if refineStrategy then refineDetectedMarkers W image corners ids else (corners, ids).

(** The two lines printed when a frame is added. *)
Definition frame_log (image : Image) : list event :=
  [ Cout [OStr "Frame captured"; OEndl];
    Cout [OSize (img_size image); OStr newline] ].

(** The store [st] with the frames [new] added at the end. *)
Definition push_frames (st : Store)
    (new : list (list MarkerCorners * list Z * Image)) : Store :=
  {| allCorners := allCorners st ++ new.*1.*1;
     allIds := allIds st ++ new.*1.*2;
     allImgs := allImgs st ++ new.*2;
     imgSize := match last new with
                | Some f => img_size f.2
                | None => imgSize st
                end |}.

(** The world [W] with another marker refinement. *)
Definition with_refine (W : World)
    (refine : Image -> list MarkerCorners -> list Z -> list MarkerCorners * list Z)
    : World :=
  {| can_read := can_read W;
     can_write := can_write W;
     local_time := local_time W;
     detectMarkers := detectMarkers W;
     refineDetectedMarkers := refine;
     interpolateCornersCharuco := interpolateCornersCharuco W;
     calibrateCameraAruco := calibrateCameraAruco W;
     calibrateCameraCharuco := calibrateCameraCharuco W |}.

(** ** Stage A on any two vectors *)

(** The indexing of the concatenation stays in range: a frame with
    markers has an identifier vector, at least as long as its corners. *)
Definition concatenate_in_range (cs : list (list MarkerCorners)) (ids : list (list Z))
    : Prop :=
  forall k c, cs !! k = Some c -> c <> [] ->
    exists idc, ids !! k = Some idc /\ (length c <= length idc)%nat.

(** ** The fields of a parameter file *)

(** The fields written to the file [out], in order. *)
Definition fs_fields (out : string) (t : list event) : list (string * fs_value) :=
  flat_map (fun e => match e with
                     | FsPut f k v => if String.eqb f out then [(k, v)] else []
                     | _ => []
                     end) t.

(** The value of the first field named [key]. *)
Definition fs_get (out key : string) (t : list event) : option fs_value :=
  match List.find (fun kv => String.eqb kv.1 key) (fs_fields out t) with
  | Some kv => Some kv.2
  | None => None
  end.

(** ** The display loop *)

(** What is drawn over a frame. *)
Definition overlay_of (ids : list Z) (corners : CharucoCorners) (cids : CharucoIds)
    : option (CharucoCorners * CharucoIds) :=
  if (int_of_size (length ids) >? 0) && (0 <? length corners)%nat
  then Some (corners, cids) else None.

(** Every frame as the loop shows it when it is not interrupted. *)
Fixpoint all_shown (imgs : list Image) (ids : list (list Z))
    (cs : list CharucoCorners) (cis : list CharucoIds) : list Shown :=
  match imgs, ids, cs, cis with
  | img :: imgs', i :: ids', c :: cs', ci :: cis' =>
    mkShown img (overlay_of i c ci) :: all_shown imgs' ids' cs' cis'
  | _, _, _, _ => []
  end.

(** The number of frames shown out of [n]: up to and including the first
    at which ESC is pressed. *)
Fixpoint shown_count (n : nat) (keys : list Z) : nat :=
  match n with
  | O => O
  | S n' => if to_char (hd (-1) keys) =? 27 then 1%nat else S (shown_count n' (tl keys))
  end.

(** * A small world to run the program in

    An image carries in its data the number of markers the detector finds
    in it and the number of board corners interpolation then yields. *)
Definition demo_point (k : nat) : Point2f := mkPoint (double_of_int (Z.of_nat k)) 0%float.

Definition demo_image (markers corners : Z) : Image :=
  mkImage (mkSize 1280 720) [markers; corners].

Definition demo_count (img : Image) (k : nat) : nat :=
  Z.to_nat (nth k (img_data img) 0).

Definition demo_matrix (fx : double) : Mat :=
  [[fx; 0; 640]; [0; fx; 360]; [0; 0; 1]]%float.

Definition demo_world (writable : bool) : World :=
  {| can_read := fun _ => true;
     can_write := fun _ => writable;
     local_time := "Fri Oct 30 10:37:00 2026";
     detectMarkers := fun img =>
       (map (fun k => [demo_point k]) (seq 0 (demo_count img 0)),
        map Z.of_nat (seq 0 (demo_count img 0)));
     refineDetectedMarkers := fun _ corners ids => (corners, ids);
     interpolateCornersCharuco := fun _ _ img _ _ =>
       (map demo_point (seq 0 (demo_count img 1)),
        map Z.of_nat (seq 0 (demo_count img 1)));
     calibrateCameraAruco := fun _ _ _ _ _ _ _ =>
       (demo_matrix 800%float, [[0; 0; 0; 0; 0]]%float, 2%float);
     calibrateCameraCharuco := fun _ _ _ _ _ _ =>
       (demo_matrix 810%float, [[0.125; 0; 0; 0; 0]]%float, 0.5%float) |}.

(** Every frame is shown with the key [c] pressed; then the camera stops. *)
Definition demo_cam (frames : list Image) : list (Image * Z) :=
  map (fun img => (img, 99)) frames.

(** ** Sample stores *)

(** The store the capture loop builds in [demo_world] when every one of
    [imgs] is added. *)
Definition demo_store (imgs : list Image) : Store :=
  {| allCorners := map (fun img => (detectMarkers (demo_world true) img).1) imgs;
     allIds := map (fun img => (detectMarkers (demo_world true) img).2) imgs;
     allImgs := imgs;
     imgSize := mkSize 1280 720 |}.

(** Three frames with 2, 1 and 3 markers; interpolation yields 1, 0 and 2
    board corners. *)
Definition three_frames : list Image :=
  [demo_image 2 1; demo_image 1 0; demo_image 3 2].

(** Four frames, none of which yields a board corner. *)
Definition four_empty_frames : list Image :=
  [demo_image 2 0; demo_image 1 0; demo_image 3 0; demo_image 1 0].

(** Four frames, the second of which yields no board corner. *)
Definition four_frames : list Image :=
  [demo_image 2 1; demo_image 1 0; demo_image 3 2; demo_image 1 1].

(** Five frames with six markers each, every one yielding four board
    corners. *)
Definition five_frames : list Image :=
  [demo_image 6 4; demo_image 6 4; demo_image 6 4; demo_image 6 4; demo_image 6 4].

(** A frame shown without a key pressed, a frame without markers with [c]
    pressed, and a frame at which ESC ends the session. *)
Definition idle_cam : list (Image * Z) :=
  [(demo_image 2 1, -1); (demo_image 0 0, 99); (demo_image 1 1, 27); (demo_image 2 2, 99)].

(** A world whose detector parameter file cannot be read. *)
Definition unconfigured_world : World :=
  {| can_read := fun _ => false;
     can_write := can_write (demo_world true);
     local_time := local_time (demo_world true);
     detectMarkers := detectMarkers (demo_world true);
     refineDetectedMarkers := refineDetectedMarkers (demo_world true);
     interpolateCornersCharuco := interpolateCornersCharuco (demo_world true);
     calibrateCameraAruco := calibrateCameraAruco (demo_world true);
     calibrateCameraCharuco := calibrateCameraCharuco (demo_world true) |}.

(** * Properties *)

(** ** Laws of [Prog] *)

Lemma bind_ret_l {A B} (a : A) (f : A -> Prog B) : (mret a ≫= f) = f a.
Proof.
  unfold mret, mbind, Prog_ret, Prog_bind, prog_ret, prog_bind.
  destruct (f a); reflexivity.
Qed.

Lemma bind_val {A B} (t : list event) (a : A) (f : A -> Prog B) :
  ((t, Val a) : Prog A) ≫= f = (t ++ trace (f a), outcome (f a)).
Proof.
  unfold mbind, Prog_bind, prog_bind, trace, outcome.
  destruct (f a); reflexivity.
Qed.

Lemma bind_emit {B} (e : event) (k : Prog B) :
  (emit e;; k) = (e :: trace k, outcome k).
Proof. unfold emit. rewrite bind_val. reflexivity. Qed.

Lemma bind_return {A B} (t : list event) (code : Z) (f : A -> Prog B) :
  ((t, Return code) : Prog A) ≫= f = (t, Return code).
Proof. reflexivity. Qed.

Lemma bind_undefined {A B} (t : list event) (f : A -> Prog B) :
  ((t, Undefined) : Prog A) ≫= f = (t, Undefined).
Proof. reflexivity. Qed.

(** The events of [m ≫= f] are those of [m], followed by those of [f]
    when [m] ran to its end. *)
Lemma trace_bind {A B} (m : Prog A) (f : A -> Prog B) :
  trace (m ≫= f) =
  trace m ++ match outcome m with Val a => trace (f a) | _ => [] end.
Proof.
  destruct m as [t [a | code | ]]; cbn [trace outcome fst snd].
  - rewrite bind_val. reflexivity.
  - rewrite bind_return, app_nil_r. reflexivity.
  - rewrite bind_undefined, app_nil_r. reflexivity.
Qed.

(** ** Loops *)

(** The invariant rule: when each round of the body takes [I i] to
    [I (i + 1)] without events, the loop takes [I 0] to [I n]. *)
Lemma for_each_seq_inv {S} (I : nat -> S) (body : nat -> S -> Prog S) (n a : nat) :
  (forall i, (a <= i < a + n)%nat -> body i (I i) = mret (I (Datatypes.S i))) ->
  for_each (seq a n) body (I a) = mret (I (a + n)%nat).
Proof.
  revert a. induction n as [| n IH]; intros a Hbody; simpl.
  - rewrite Nat.add_0_r. reflexivity.
  - rewrite Hbody by lia. rewrite bind_ret_l.
    rewrite IH by (intros i Hi; apply Hbody; lia).
    replace (Datatypes.S a + n)%nat with (a + Datatypes.S n)%nat by lia.
    reflexivity.
Qed.

Lemma for_upto_inv {S} (I : nat -> S) (body : nat -> S -> Prog S) (n : nat) (s : S) :
  s = I 0%nat ->
  (forall i, (i < n)%nat -> body i (I i) = mret (I (Datatypes.S i))) ->
  for_upto n body s = mret (I n).
Proof.
  intros -> Hbody. unfold for_upto.
  apply (for_each_seq_inv I body n 0). intros i Hi. apply Hbody. lia.
Qed.

(** A loop whose body has no events has none. *)
Lemma for_each_silent {S} (body : nat -> S -> Prog S) (idx : list nat) (s : S) :
  (forall i s', trace (body i s') = []) ->
  trace (for_each idx body s) = [].
Proof.
  intros Hbody. revert s. induction idx as [| i idx IH]; intros s; simpl.
  - reflexivity.
  - rewrite trace_bind, Hbody. simpl. destruct (outcome (body i s)); auto.
Qed.

Lemma at_lookup {A} (v : list A) (i : nat) (x : A) : v !! i = Some x -> at_ v i = mret x.
Proof. intros H. unfold at_. rewrite H. reflexivity. Qed.

Lemma at_silent {A} (v : list A) (i : nat) : trace (at_ v i) = [].
Proof. unfold at_. destruct (v !! i); reflexivity. Qed.

Lemma to_int_small (z : Z) : - 2 ^ 31 <= z < 2 ^ 31 -> to_int z = z.
Proof.
  intros H. unfold to_int, wrap.
  change (2 ^ (32 - 1)) with (2 ^ 31). change (2 ^ 32) with (2 * 2 ^ 31).
  rewrite Z.mod_small by lia. lia.
Qed.

Lemma int_of_size_small (n : nat) : Z.of_nat n < 2 ^ 31 -> int_of_size n = Z.of_nat n.
Proof. intros H. apply to_int_small. lia. Qed.

(** ** Stage A: what the concatenation computes *)

Lemma concatenate_spec (cs : list (list MarkerCorners)) (ids : list (list Z)) :
  ids_agree cs ids ->
  concatenate cs ids = mret (concat cs, concat ids, marker_counts cs).
Proof.
  intros Hagree. unfold concatenate.
  pose (I := fun k : nat =>
    (concat (take k cs), concat (take k ids), marker_counts (take k cs))).
  rewrite (for_upto_inv I).
  - unfold I. rewrite (take_ge cs) by lia.
    rewrite (take_ge ids) by (rewrite <- (Forall2_length _ _ _ Hagree); lia).
    reflexivity.
  - reflexivity.
  - intros i Hi.
    destruct (lookup_lt_is_Some_2 cs i Hi) as [c Hc].
    destruct (Forall2_lookup_l _ _ _ _ _ Hagree Hc) as (idc & Hidc & Hlen).
    unfold I at 1. cbv beta iota.
    rewrite (at_lookup _ _ _ Hc), bind_ret_l.
    pose (J := fun j : nat =>
      (concat (take i cs) ++ take j c, concat (take i ids) ++ take j idc)).
    rewrite (for_upto_inv J).
    + rewrite bind_ret_l. unfold J, I.
      rewrite (take_S_r _ _ _ Hc), (take_S_r _ _ _ Hidc).
      rewrite !concat_app. simpl. rewrite !app_nil_r.
      rewrite (take_ge c) by lia. rewrite (take_ge idc) by lia.
      unfold marker_counts. rewrite map_app. reflexivity.
    + unfold J. simpl. rewrite !app_nil_r. reflexivity.
    + intros j Hj.
      destruct (lookup_lt_is_Some_2 c j Hj) as [pt Hpt].
      destruct (lookup_lt_is_Some_2 idc j ltac:(lia)) as [id Hid].
      unfold J at 1. cbv beta iota.
      rewrite (at_lookup _ _ _ Hpt), bind_ret_l.
      rewrite (at_lookup _ _ _ Hidc), bind_ret_l.
      rewrite (at_lookup _ _ _ Hid), bind_ret_l.
      unfold J. rewrite (take_S_r _ _ _ Hpt), (take_S_r _ _ _ Hid).
      rewrite !app_assoc. reflexivity.
Qed.

Section Facts.

Variable W : World.

(** ** What [saveCameraParams] writes *)

Lemma saveCameraParams_spec out sz a flags K D err :
  saveCameraParams W out sz a flags K D err =
  if can_write W out then (save_events W out sz a flags K D err, Val true)
  else ([], Val false).
Proof.
  unfold saveCameraParams, save_events.
  destruct (can_write W out); [| reflexivity].
  destruct (flag_set flags CALIB_FIX_ASPECT_RATIO); reflexivity.
Qed.

(** ** Stage B: what the interpolation loop computes *)

Lemma frames_lookup st i c idc img :
  allCorners st !! i = Some c -> allIds st !! i = Some idc -> allImgs st !! i = Some img ->
  frames st !! i = Some (c, idc, img).
Proof.
  intros Hc Hi Him. unfold frames.
  rewrite lookup_zip_with, lookup_zip_with, Hc, Hi, Him. reflexivity.
Qed.

Lemma length_frames st :
  length (allIds st) = length (allCorners st) ->
  length (allImgs st) = length (allCorners st) ->
  length (frames st) = length (allCorners st).
Proof. intros Hi Him. unfold frames. rewrite length_zip_with, length_zip_with. lia. Qed.

Lemma interpolate_frames_spec st (n : nat) K D :
  length (allIds st) = length (allCorners st) ->
  length (allImgs st) = length (allCorners st) ->
  (n <= length (allCorners st))%nat ->
  interpolate_frames W st (Z.of_nat n) K D =
  mret ((take n (interpolated W K D st)).*1, (take n (interpolated W K D st)).*2,
        take n (allImgs st)).
Proof.
  intros Hi Him Hn. unfold interpolate_frames. rewrite Nat2Z.id.
  pose (I := fun k : nat =>
    ((take k (interpolated W K D st)).*1, (take k (interpolated W K D st)).*2,
     take k (allImgs st))).
  apply (for_upto_inv I); [reflexivity |].
  intros i Hlt.
  destruct (lookup_lt_is_Some_2 (allCorners st) i ltac:(lia)) as [c Hc].
  destruct (lookup_lt_is_Some_2 (allIds st) i ltac:(lia)) as [idc Hidc].
  destruct (lookup_lt_is_Some_2 (allImgs st) i ltac:(lia)) as [img Himg].
  assert (Hr : interpolated W K D st !! i = Some (interpolate W K D (c, idc, img))).
  { unfold interpolated. rewrite list_lookup_fmap, (frames_lookup _ _ _ _ _ Hc Hidc Himg).
    reflexivity. }
  unfold I at 1. cbv beta iota.
  rewrite (at_lookup _ _ _ Hc), bind_ret_l.
  rewrite (at_lookup _ _ _ Hidc), bind_ret_l.
  rewrite (at_lookup _ _ _ Himg), bind_ret_l.
  unfold I. rewrite (take_S_r _ _ _ Hr), (take_S_r _ _ _ Himg), !fmap_app.
  unfold interpolate. cbn [fst snd].
  destruct (interpolateCornersCharuco W c idc img K D) as [cc ci]. reflexivity.
Qed.

(** ** The calibration in closed form *)

Lemma calibrate_spec out flags r st :
  store_ok st ->
  calibrate W out flags r st = (calibrate_trace W out flags r st, Return 0).
Proof.
  intros (Hagree & Himgs & Hfit).
  pose proof (Forall2_length _ _ _ Hagree) as Hids.
  unfold calibrate, calibrate_trace.
  rewrite <- Hids, !int_of_size_small by lia.
  destruct (length (allCorners st)) as [| n] eqn:Hn.
  { reflexivity. }
  replace (Z.of_nat (S n) <? 1) with false by (symmetry; apply Z.ltb_ge; lia).
  cbn [Nat.eqb].
  rewrite (concatenate_spec _ _ Hagree), bind_ret_l, bind_emit.
  fold (seeded_matrix flags r). fold (bootstrap W flags r st).
  fold (stageA_call flags r st).
  destruct (bootstrap W flags r st) as [[K1 D1] e1] eqn:Hboot.
  rewrite (interpolate_frames_spec st (S n) K1 D1) by lia.
  rewrite bind_ret_l.
  assert (Hlen : length (interpolated W K1 D1 st) = S n).
  { unfold interpolated. rewrite length_fmap, length_frames; lia. }
  rewrite !take_ge by lia. rewrite length_fmap, Hlen.
  assert (HK : K1 = (bootstrap W flags r st).1.1) by (rewrite Hboot; reflexivity).
  assert (HD : D1 = (bootstrap W flags r st).1.2) by (rewrite Hboot; reflexivity).
  destruct (S n <? 4)%nat eqn:Hfew.
  { rewrite bind_emit. reflexivity. }
  rewrite bind_emit. cbn [trace outcome fst snd].
  assert (HB : CallCalibrateCameraCharuco (interpolated W K1 D1 st).*1
                 (interpolated W K1 D1 st).*2 (imgSize st) K1 D1 flags
               = stageB_call W flags r st).
  { unfold stageB_call, board_corners. rewrite <- HK, <- HD. reflexivity. }
  assert (HR : calibrateCameraCharuco W (interpolated W K1 D1 st).*1
                 (interpolated W K1 D1 st).*2 (imgSize st) K1 D1 flags
               = refined W flags r st).
  { unfold refined, board_corners. rewrite <- HK, <- HD. reflexivity. }
  rewrite HB, HR.
  unfold report_events. rewrite Hboot.
  destruct (refined W flags r st) as [[K2 D2] e2].
  rewrite saveCameraParams_spec.
  destruct (can_write W out).
  - rewrite bind_val. reflexivity.
  - rewrite bind_val. reflexivity.
Qed.

(** ** The capture loop *)

(** The capture loop runs to its end; it adds at most one frame per frame
    grabbed, to the three vectors at once, and prints only when it adds. *)
Lemma capture_facts (r : bool) (cam : list (Image * Z)) (st : Store) :
  exists t st',
    capture W r cam st = (t, Val st')
    /\ (length (allIds st) <= length (allIds st') <= length (allIds st) + length cam)%nat
    /\ (length (allIds st') = length (allIds st) -> t = [] /\ st' = st)
    /\ (length (allCorners st) = length (allIds st) ->
        length (allCorners st') = length (allIds st'))
    /\ (length (allImgs st) = length (allIds st) ->
        length (allImgs st') = length (allIds st')).
Proof.
  revert st. induction cam as [| [image pressed] cam IH]; intros st.
  - exists [], st. simpl. repeat split; auto; lia.
  - cbn [capture].
    destruct (detectMarkers W image) as [corners0 ids0].
    destruct (if r then refineDetectedMarkers W image corners0 ids0 else (corners0, ids0))
      as [corners ids].
    destruct (to_char pressed =? 27).
    { exists [], st. cbn [length]. repeat split; auto; lia. }
    destruct ((to_char pressed =? 99) && (int_of_size (length ids) >? 0)).
    + match goal with |- context [capture W r cam ?s] =>
        destruct (IH s) as (t & st' & Heq & Hlen & _ & Hc & Hi); rewrite Heq
      end.
      cbn [allIds allCorners allImgs] in Hlen, Hc, Hi.
      rewrite length_app in Hlen, Hc, Hi. cbn [length] in *.
      rewrite !length_app in Hc, Hi. cbn [length] in *.
      eexists _, st'. split; [reflexivity |].
      repeat split; lia.
    + destruct (IH st) as (t & st' & Heq & Hlen & Hnone & Hc & Hi).
      exists t, st'. cbn [length]. repeat split; auto; try lia; apply Hnone; auto.
Qed.

Lemma capture_committed (cam : list (Image * Z)) :
  capture W false cam empty_store
  = (trace (capture W false cam empty_store), Val (committed W cam)).
Proof.
  unfold committed.
  destruct (capture_facts false cam empty_store) as (t & st & -> & _). reflexivity.
Qed.

Lemma capture_ids_agree (cam : list (Image * Z)) (st st' : Store) (t : list event) :
  detector_ok W ->
  ids_agree (allCorners st) (allIds st) ->
  capture W false cam st = (t, Val st') ->
  ids_agree (allCorners st') (allIds st').
Proof.
  intros Hdet. revert st t. induction cam as [| [image pressed] cam IH]; intros st t Hst.
  - simpl. intros [= _ <-]. exact Hst.
  - cbn [capture]. specialize (Hdet image).
    destruct (detectMarkers W image) as [corners ids]. cbn [fst snd] in Hdet.
    destruct (to_char pressed =? 27).
    { intros [= _ <-]. exact Hst. }
    destruct ((to_char pressed =? 99) && (int_of_size (length ids) >? 0)).
    + match goal with |- context [capture W false cam ?s] =>
        destruct (capture_facts false cam s) as (t1 & st1 & Heq & _);
        specialize (IH s t1); rewrite Heq in *
      end.
      intros [= _ <-]. apply IH; [| reflexivity].
      cbn [allCorners allIds]. apply Forall2_app; [exact Hst |].
      constructor; [exact Hdet | constructor].
    + apply IH. exact Hst.
Qed.

(** With a detector that keeps its contract, the store the capture loop
    leaves is well formed. *)
Lemma capture_store_ok (cam : list (Image * Z)) :
  detector_ok W -> Z.of_nat (length cam) < 2 ^ 31 -> store_ok (committed W cam).
Proof.
  intros Hdet Hcam.
  destruct (capture_facts false cam empty_store) as (t & st & Heq' & Hlen & _ & Hc & Hi).
  assert (Hst : committed W cam = st) by (unfold committed; rewrite Heq'; reflexivity).
  rewrite Hst.
  cbn [empty_store allIds allCorners allImgs length] in Hlen, Hc, Hi.
  repeat split.
  - eapply capture_ids_agree; [exact Hdet | | exact Heq']. constructor.
  - rewrite Hi, Hc; reflexivity.
  - rewrite Hc by reflexivity. lia.
Qed.

(** [main] up to the calibration. *)
Lemma main_spec (cam : list (Image * Z)) :
  can_read W "detectIn.yml" = true ->
  main W cam =
  (ImWrite "charImg.png"
     :: trace (capture W false cam empty_store)
     ++ trace (calibrate W "outFile.txt" 2 aspectRatio (committed W cam)),
   outcome (calibrate W "outFile.txt" 2 aspectRatio (committed W cam))).
Proof.
  intros Hread. unfold main, readDetectorParameters. rewrite Hread. cbn [negb].
  rewrite bind_ret_l. cbn [negb]. rewrite bind_emit.
  rewrite (capture_committed cam), bind_val. reflexivity.
Qed.

(** [main] from end to end, with a detector that keeps its contract. *)
Lemma main_calibrated (cam : list (Image * Z)) :
  can_read W "detectIn.yml" = true ->
  detector_ok W ->
  Z.of_nat (length cam) < 2 ^ 31 ->
  main W cam =
  (ImWrite "charImg.png"
     :: trace (capture W false cam empty_store)
     ++ calibrate_trace W "outFile.txt" 2 aspectRatio (committed W cam),
   Return 0).
Proof.
  intros Hread Hdet Hcam.
  rewrite (main_spec cam Hread).
  rewrite (calibrate_spec _ _ _ _ (capture_store_ok cam Hdet Hcam)). reflexivity.
Qed.

Lemma main_no_config (cam : list (Image * Z)) :
  can_read W "detectIn.yml" = false ->
  main W cam = ([Cerr [OStr "Err DetectIn"]], Return 0).
Proof.
  intros Hread. unfold main, readDetectorParameters. rewrite Hread. reflexivity.
Qed.

End Facts.

(** * Stage A: counts and concatenation *)

Lemma marker_counts_fit (cs : list (list MarkerCorners)) :
  counts_fit cs -> marker_counts cs = map (fun c => Z.of_nat (length c)) cs.
Proof.
  unfold counts_fit, marker_counts. induction 1 as [| c cs Hc _ IH]; simpl.
  - reflexivity.
  - rewrite IH, int_of_size_small by exact Hc. reflexivity.
Qed.

Lemma sum_counts_lengths {A} (l : list (list A)) :
  sum_counts (map (fun c => Z.of_nat (length c)) l) = Z.of_nat (length (concat l)).
Proof.
  induction l as [| c l IH]; simpl.
  - reflexivity.
  - rewrite IH, length_app. lia.
Qed.

Lemma ids_agree_counts (cs : list (list MarkerCorners)) (ids : list (list Z)) :
  ids_agree cs ids ->
  map (fun c => Z.of_nat (length c)) cs = map (fun i => Z.of_nat (length i)) ids.
Proof.
  unfold ids_agree. induction 1 as [| c i cs ids Hlen _ IH]; simpl.
  - reflexivity.
  - rewrite IH, Hlen. reflexivity.
Qed.

(** C5: for every store whose frames have one identifier per marker (and
    marker counts that fit an [int]), Stage A's concatenation yields the
    flat corner sequence, the flat identifier sequence and the per-frame
    marker counts, all three in frame order, and the sum of the counts is
    the length of either flat sequence. *)
Theorem marker_counter_sums_to_flat_length
    (cs : list (list MarkerCorners)) (ids : list (list Z)) :
  ids_agree cs ids -> counts_fit cs ->
  exists flat_corners flat_ids counter,
    concatenate cs ids = mret (flat_corners, flat_ids, counter)
    /\ flat_corners = concat cs
    /\ flat_ids = concat ids
    /\ counter = map (fun c => Z.of_nat (length c)) cs
    /\ sum_counts counter = Z.of_nat (length flat_corners)
    /\ sum_counts counter = Z.of_nat (length flat_ids).
Proof.
  intros Hagree Hfit.
  exists (concat cs), (concat ids), (map (fun c => Z.of_nat (length c)) cs).
  split; [| repeat split].
  - rewrite (concatenate_spec _ _ Hagree), (marker_counts_fit _ Hfit). reflexivity.
  - apply sum_counts_lengths.
  - rewrite (ids_agree_counts _ _ Hagree). apply sum_counts_lengths.
Qed.

Lemma demo_store_agree (imgs : list Image) :
  ids_agree (allCorners (demo_store imgs)) (allIds (demo_store imgs)).
Proof.
  unfold ids_agree. induction imgs as [| img imgs IH]; simpl.
  - constructor.
  - constructor; [| exact IH]. rewrite !length_map. reflexivity.
Defined.

Lemma marker_counter_sums_to_flat_length_witness :
  ids_agree (allCorners (demo_store three_frames)) (allIds (demo_store three_frames))
  /\ counts_fit (allCorners (demo_store three_frames))
  /\ exists flat_corners flat_ids counter,
       concatenate (allCorners (demo_store three_frames)) (allIds (demo_store three_frames))
       = mret (flat_corners, flat_ids, counter)
       /\ flat_corners = concat (allCorners (demo_store three_frames))
       /\ flat_ids = concat (allIds (demo_store three_frames))
       /\ counter = map (fun c => Z.of_nat (length c)) (allCorners (demo_store three_frames))
       /\ sum_counts counter = Z.of_nat (length flat_corners)
       /\ sum_counts counter = Z.of_nat (length flat_ids).
Proof.
  assert (Hfit : counts_fit (allCorners (demo_store three_frames))).
  { repeat constructor. }
  split; [apply demo_store_agree | split; [exact Hfit |]].
  apply (marker_counter_sums_to_flat_length _ _ (demo_store_agree three_frames) Hfit).
Defined.

Lemma resegment_concat {A} (l : list (list A)) :
  resegment (map (fun g => Z.of_nat (length g)) l) (concat l) = l.
Proof.
  induction l as [| g l IH]; simpl.
  - reflexivity.
  - rewrite Nat2Z.id, take_app_length, drop_app_length, IH. reflexivity.
Qed.

(** C6: flattening the per-frame groups of corners and of identifiers as
    Stage A does, and cutting the flat sequences again by the counts
    recorded, gives back the groups, in order. *)
Theorem resegment_concatenate
    (cs : list (list MarkerCorners)) (ids : list (list Z)) :
  ids_agree cs ids -> counts_fit cs ->
  exists flat_corners flat_ids counter,
    concatenate cs ids = mret (flat_corners, flat_ids, counter)
    /\ length counter = length cs
    /\ resegment counter flat_corners = cs
    /\ resegment counter flat_ids = ids.
Proof.
  intros Hagree Hfit.
  exists (concat cs), (concat ids), (map (fun c => Z.of_nat (length c)) cs).
  split; [| repeat split].
  - rewrite (concatenate_spec _ _ Hagree), (marker_counts_fit _ Hfit). reflexivity.
  - apply length_map.
  - apply resegment_concat.
  - rewrite (ids_agree_counts _ _ Hagree). apply resegment_concat.
Qed.

Lemma resegment_concatenate_witness :
  ids_agree (allCorners (demo_store three_frames)) (allIds (demo_store three_frames))
  /\ counts_fit (allCorners (demo_store three_frames))
  /\ exists flat_corners flat_ids counter,
       concatenate (allCorners (demo_store three_frames)) (allIds (demo_store three_frames))
       = mret (flat_corners, flat_ids, counter)
       /\ length counter = length (allCorners (demo_store three_frames))
       /\ resegment counter flat_corners = allCorners (demo_store three_frames)
       /\ resegment counter flat_ids = allIds (demo_store three_frames).
Proof.
  assert (Hfit : counts_fit (allCorners (demo_store three_frames))).
  { repeat constructor. }
  split; [apply demo_store_agree | split; [exact Hfit |]].
  apply (resegment_concatenate _ _ (demo_store_agree three_frames) Hfit).
Defined.

(** The three frames flatten to six markers with counts 2, 1 and 3. *)
Example concatenate_three_frames :
  exists flat_corners,
    concatenate (allCorners (demo_store three_frames)) (allIds (demo_store three_frames))
    = mret (flat_corners, [0; 1; 0; 0; 1; 2], [2; 1; 3])
    /\ length flat_corners = 6%nat.
Proof. eexists. split; vm_compute; reflexivity. Qed.

(** * The parameter writer *)

(** C8: with the flags [main] passes (fix aspect ratio, not zero), the
    fields written are the time stamp, the image width and height, the
    aspect ratio, the numeric flags, the camera matrix, the distortion
    coefficients and the reprojection error: the flags text
    ["flags: +fix_aspectRatio"] is formatted and not written.  Whatever the
    flags, no text other than the time stamp is written. *)
Theorem flags_text_not_written :
  saveCameraParams (demo_world true) "outFile.txt" (mkSize 1280 720) 1%float
    2 (demo_matrix 810%float) [[0.125; 0; 0; 0; 0]]%float 0.5%float
  = ([ FsOpen "outFile.txt";
       FsPut "outFile.txt" "calibration_time" (FsString "Fri Oct 30 10:37:00 2026");
       FsPut "outFile.txt" "image_width" (FsInt 1280);
       FsPut "outFile.txt" "image_height" (FsInt 720);
       FsPut "outFile.txt" "aspectRatio" (FsFloat 1%float);
       FsPut "outFile.txt" "flags" (FsInt 2);
       FsPut "outFile.txt" "camera_matrix" (FsMat (demo_matrix 810%float));
       FsPut "outFile.txt" "distortion_coefficients"
         (FsMat [[0.125; 0; 0; 0; 0]]%float);
       FsPut "outFile.txt" "avg_reprojection_error" (FsDouble 0.5%float) ],
     Val true)
  /\ flags_text 2 = "flags: +fix_aspectRatio"
  /\ forall W out sz a flags K D err,
       Forall no_text_but_time (trace (saveCameraParams W out sz a flags K D err)).
Proof.
  split; [reflexivity | split; [reflexivity |]].
  intros W out sz a flags K D err. rewrite saveCameraParams_spec.
  destruct (can_write W out); [| constructor].
  unfold save_events, trace, fst.
  destruct (flag_set flags CALIB_FIX_ASPECT_RATIO);
    repeat (constructor; [intros f k s [=]; subst; reflexivity || discriminate |]);
    constructor.
Qed.

(** * The calibration, whatever the store *)

Lemma concatenate_silent (cs : list (list MarkerCorners)) (ids : list (list Z)) :
  trace (concatenate cs ids) = [].
Proof.
  unfold concatenate, for_upto. apply for_each_silent.
  intros i [[cc ci] cnt].
  rewrite trace_bind, at_silent. simpl.
  destruct (outcome (at_ cs i)) as [c | |]; try reflexivity.
  rewrite trace_bind. unfold for_upto. rewrite for_each_silent.
  - simpl. match goal with |- context [outcome ?p] => destruct (outcome p) as [[] | |] end;
      reflexivity.
  - intros j [cc' ci'].
    rewrite trace_bind, at_silent. simpl.
    destruct (outcome (at_ c j)); try reflexivity.
    rewrite trace_bind, at_silent. simpl.
    destruct (outcome (at_ ids i)) as [idc | |]; try reflexivity.
    rewrite trace_bind, at_silent. simpl.
    destruct (outcome (at_ idc j)); reflexivity.
Qed.

Lemma interpolate_frames_silent W st nFrames K D :
  trace (interpolate_frames W st nFrames K D) = [].
Proof.
  unfold interpolate_frames, for_upto. apply for_each_silent.
  intros i [[cc ci] imgs].
  rewrite trace_bind, at_silent. simpl.
  destruct (outcome (at_ (allCorners st) i)) as [c | |]; try reflexivity.
  rewrite trace_bind, at_silent. simpl.
  destruct (outcome (at_ (allIds st) i)) as [idc | |]; try reflexivity.
  rewrite trace_bind, at_silent. simpl.
  destruct (outcome (at_ (allImgs st) i)) as [img | |]; try reflexivity.
  destruct (interpolateCornersCharuco W c idc img K D). reflexivity.
Qed.

Lemma calibrate_events W out flags r st :
  Forall (aspect_ratio_used flags r) (trace (calibrate W out flags r st)).
Proof.
  unfold calibrate.
  destruct (int_of_size (length (allIds st)) <? 1).
  { rewrite bind_emit. repeat constructor. }
  rewrite trace_bind, concatenate_silent. cbn [app].
  destruct (outcome (concatenate (allCorners st) (allIds st))) as [[[cc ci] cnt] | |];
    [| constructor ..].
  rewrite bind_emit. cbn [trace fst]. constructor; [reflexivity |].
  destruct (calibrateCameraAruco W cc ci cnt (imgSize st) _ [] flags) as [[K1 D1] e1].
  rewrite trace_bind, interpolate_frames_silent. cbn [app].
  destruct (outcome (interpolate_frames W st _ K1 D1)) as [[[bc bi] imgs] | |];
    [| constructor ..].
  destruct (length bc <? 4)%nat.
  { rewrite bind_emit. repeat constructor. }
  rewrite bind_emit. cbn [trace fst]. constructor; [exact I |].
  destruct (calibrateCameraCharuco W bc bi (imgSize st) K1 D1 flags) as [[K2 D2] e2].
  rewrite saveCameraParams_spec.
  destruct (can_write W out).
  - rewrite bind_val. cbn [negb trace outcome fst snd]. unfold save_events.
    destruct (flag_set flags CALIB_FIX_ASPECT_RATIO);
      repeat (constructor; [first [exact I | intros [=] | intros _; reflexivity] |]);
      constructor.
  - rewrite bind_val. repeat constructor.
Qed.

Lemma capture_cout W r cam st :
  Forall (fun e => match e with Cout _ => True | _ => False end)
    (trace (capture W r cam st)).
Proof.
  revert st. induction cam as [| [image pressed] cam IH]; intros st; cbn [capture].
  - constructor.
  - destruct (detectMarkers W image) as [corners0 ids0].
    destruct (if r then refineDetectedMarkers W image corners0 ids0 else (corners0, ids0))
      as [corners ids].
    destruct (to_char pressed =? 27); [constructor |].
    destruct ((to_char pressed =? 99) && (int_of_size (length ids) >? 0)); [| apply IH].
    rewrite bind_emit. cbn [trace fst]. constructor; [exact I |].
    rewrite bind_emit. cbn [trace fst]. constructor; [exact I | apply IH].
Qed.

(** * The aspect ratio *)

(** C10: the aspect ratio of [main] is the quotient of the integers 16 and
    9, which is 1, and so it is 1.0 and not 16.0 / 9.0.  In every run,
    every marker calibration starts from the camera matrix whose (0,0)
    entry is that 1.0 (the identity matrix), and the aspect ratio field
    written to the output file is 1.0; a run that writes it is shown. *)
Theorem aspect_ratio_is_one :
  Z.quot 16 9 = 1
  /\ aspectRatio = double_of_int (Z.quot 16 9)
  /\ aspectRatio = 1%float
  /\ aspectRatio <> (16 / 9)%float
  /\ (forall W cam,
        Forall (fun e =>
                  match e with
                  | CallCalibrateCameraAruco _ _ _ _ K _ _ =>
                    K = [[1; 0; 0]; [0; 1; 0]; [0; 0; 1]]%float
                    /\ Mat_at K 0 0 = Some aspectRatio
                  | FsPut _ k v => k = "aspectRatio" -> v = FsFloat 1%float
                  | _ => True
                  end)
          (trace (main W cam)))
  /\ In (FsPut "outFile.txt" "aspectRatio" (FsFloat 1%float))
        (trace (main (demo_world true) (demo_cam four_frames))).
Proof.
  split; [reflexivity | split; [reflexivity | split; [reflexivity | split]]].
  { intros H. apply (f_equal (fun x => PrimFloat.eqb x 1%float)) in H.
    vm_compute in H. discriminate H. }
  split.
  - intros W cam. destruct (can_read W "detectIn.yml") eqn:Hread.
    + rewrite (main_spec W cam Hread). cbn [trace fst].
      constructor; [exact I |]. apply Forall_app. split.
      * eapply Forall_impl; [apply capture_cout |].
        intros [] He; try contradiction; exact I.
      * eapply Forall_impl; [apply calibrate_events |].
        intros [] He; try exact I.
        -- exact He.
        -- cbn in He. subst. split; reflexivity.
    + rewrite (main_no_config W cam Hread). repeat constructor.
  - vm_compute. do 15 right. left. reflexivity.
Qed.

(** * The calibration of a well-formed store *)

(** The branch of [calibrate_trace] a number of frames selects. *)
Ltac by_frame_count st :=
  unfold calibrate_trace;
  destruct (Nat.eqb_spec (length (allCorners st)) 0); [try lia |];
  destruct (Nat.ltb_spec (length (allCorners st)) 4); try lia.

Lemma demo_store_ok (imgs : list Image) :
  Z.of_nat (length imgs) < 2 ^ 31 -> store_ok (demo_store imgs).
Proof.
  intros Hfit. split; [apply demo_store_agree |].
  cbn [demo_store allImgs allCorners]. rewrite length_map. split; [reflexivity | exact Hfit].
Defined.

(** A complete run: five frames are committed, both solvers are called,
    nothing is reported on [cerr], the output file is opened and eight
    fields are written, and [main] returns 0. *)
Example five_frames_run :
  length (allCorners (committed (demo_world true) (demo_cam five_frames))) = 5%nat
  /\ outcome (main (demo_world true) (demo_cam five_frames)) = Return 0
  /\ length (List.filter is_solver_call
               (trace (main (demo_world true) (demo_cam five_frames)))) = 2%nat
  /\ existsb is_cerr (trace (main (demo_world true) (demo_cam five_frames))) = false
  /\ length (List.filter (writes_file "outFile.txt")
               (trace (main (demo_world true) (demo_cam five_frames)))) = 9%nat.
Proof. vm_compute. repeat split; reflexivity. Qed.

(** In [demo_world], adding every frame leaves the sample store. *)
Example committed_three_frames :
  committed (demo_world true) (demo_cam three_frames) = demo_store three_frames.
Proof. vm_compute. reflexivity. Qed.

Lemma not_insufficient_report W out flags r st :
  ~ In InsufficientCalibrationData (report_events W out flags r st).
Proof.
  unfold report_events, save_events, InsufficientCalibrationData.
  destruct (flag_set flags CALIB_FIX_ASPECT_RATIO); cbn [app In];
    intros H; repeat (destruct H as [H | H]; [discriminate H |]); exact H.
Qed.

(** C1: when at least one and fewer than four frames were committed,
    whatever their interpolation yields, the calibration calls the marker
    solver, reports [InsufficientCalibrationData] and returns without
    calling the board solver. *)
Theorem few_frames_insufficient W out flags r st :
  store_ok st ->
  (0 < length (allCorners st) < 4)%nat ->
  calibrate W out flags r st
  = ([stageA_call flags r st; InsufficientCalibrationData], Return 0)
  /\ existsb is_charuco_call (trace (calibrate W out flags r st)) = false.
Proof.
  intros Hok Hn.
  assert (Heq : calibrate W out flags r st
                = ([stageA_call flags r st; InsufficientCalibrationData], Return 0)).
  { rewrite (calibrate_spec W out flags r st Hok). by_frame_count st. reflexivity. }
  split; [exact Heq |]. rewrite Heq. reflexivity.
Qed.

(** Three committed frames, two of which yield board corners. *)
Lemma few_frames_insufficient_witness :
  store_ok (demo_store three_frames)
  /\ (0 < length (allCorners (demo_store three_frames)) < 4)%nat
  /\ nonempty_frames
       (board_corners (demo_world true) 2 aspectRatio (demo_store three_frames)) = 2%nat
  /\ calibrate (demo_world true) "outFile.txt" 2 aspectRatio (demo_store three_frames)
     = ([stageA_call 2 aspectRatio (demo_store three_frames);
         InsufficientCalibrationData], Return 0)
  /\ existsb is_charuco_call
       (trace (calibrate (demo_world true) "outFile.txt" 2 aspectRatio
                 (demo_store three_frames))) = false.
Proof.
  assert (Hok : store_ok (demo_store three_frames)) by (apply demo_store_ok; reflexivity).
  assert (Hn : (0 < length (allCorners (demo_store three_frames)) < 4)%nat)
    by (cbn; lia).
  split; [exact Hok | split; [exact Hn | split; [vm_compute; reflexivity |]]].
  apply (few_frames_insufficient (demo_world true) "outFile.txt" 2 aspectRatio
           (demo_store three_frames) Hok Hn).
Defined.

(** Four committed frames, none of which yields a board corner: nothing is
    reported on [cerr] and the board solver is called. *)
Lemma four_empty_frames_reach_solver :
  length (allCorners (committed (demo_world true) (demo_cam four_empty_frames))) = 4%nat
  /\ nonempty_frames
       (board_corners (demo_world true) 2 aspectRatio
          (committed (demo_world true) (demo_cam four_empty_frames))) = 0%nat
  /\ existsb is_cerr (trace (main (demo_world true) (demo_cam four_empty_frames))) = false
  /\ existsb is_charuco_call
       (trace (main (demo_world true) (demo_cam four_empty_frames))) = true.
Proof. vm_compute. repeat split; reflexivity. Qed.

(** C2: with four or more committed frames, the board solver is called
    with one corner entry and one identifier entry per committed frame, in
    frame order: what interpolation yields for that frame from the camera
    matrix and distortion coefficients the marker solver left, empty or
    not.  The events after the call are those of the parameter writer and
    the three result lines, or [PersistenceError]: no frame is reported. *)
Theorem every_frame_passed_to_board_solver W out flags r st :
  store_ok st ->
  (4 <= length (allCorners st))%nat ->
  exists charucoCorners charucoIds,
    trace (calibrate W out flags r st)
    = stageA_call flags r st
      :: CallCalibrateCameraCharuco charucoCorners charucoIds (imgSize st)
           (bootstrap W flags r st).1.1 (bootstrap W flags r st).1.2 flags
      :: (if can_write W out then report_events W out flags r st
          else [PersistenceError])
    /\ length charucoCorners = length (allCorners st)
    /\ length charucoIds = length (allCorners st)
    /\ forall i c idc img,
         allCorners st !! i = Some c ->
         allIds st !! i = Some idc ->
         allImgs st !! i = Some img ->
         charucoCorners !! i
         = Some (interpolateCornersCharuco W c idc img
                   (bootstrap W flags r st).1.1 (bootstrap W flags r st).1.2).1
         /\ charucoIds !! i
            = Some (interpolateCornersCharuco W c idc img
                      (bootstrap W flags r st).1.1 (bootstrap W flags r st).1.2).2.
Proof.
  intros Hok Hn.
  exists (board_corners W flags r st).*1, (board_corners W flags r st).*2.
  pose proof Hok as (Hagree & Himgs & _).
  pose proof (Forall2_length _ _ _ Hagree) as Hids.
  split; [| split; [| split]].
  - rewrite (calibrate_spec W out flags r st Hok). unfold trace, fst.
    by_frame_count st. destruct (can_write W out); reflexivity.
  - unfold board_corners, interpolated. rewrite !length_fmap. apply length_frames; lia.
  - unfold board_corners, interpolated. rewrite !length_fmap. apply length_frames; lia.
  - intros i c idc img Hc Hi Him.
    unfold board_corners, interpolated.
    rewrite !list_lookup_fmap, (frames_lookup st i c idc img Hc Hi Him).
    split; reflexivity.
Qed.

Lemma every_frame_passed_to_board_solver_witness :
  store_ok (demo_store four_frames)
  /\ (4 <= length (allCorners (demo_store four_frames)))%nat
  /\ exists charucoCorners charucoIds,
       trace (calibrate (demo_world true) "outFile.txt" 2 aspectRatio (demo_store four_frames))
       = stageA_call 2 aspectRatio (demo_store four_frames)
         :: CallCalibrateCameraCharuco charucoCorners charucoIds
              (imgSize (demo_store four_frames))
              (bootstrap (demo_world true) 2 aspectRatio (demo_store four_frames)).1.1
              (bootstrap (demo_world true) 2 aspectRatio (demo_store four_frames)).1.2 2
         :: (if can_write (demo_world true) "outFile.txt"
             then report_events (demo_world true) "outFile.txt" 2 aspectRatio
                    (demo_store four_frames)
             else [PersistenceError])
       /\ length charucoCorners = length (allCorners (demo_store four_frames))
       /\ length charucoIds = length (allCorners (demo_store four_frames))
       /\ forall i c idc img,
            allCorners (demo_store four_frames) !! i = Some c ->
            allIds (demo_store four_frames) !! i = Some idc ->
            allImgs (demo_store four_frames) !! i = Some img ->
            charucoCorners !! i
            = Some (interpolateCornersCharuco (demo_world true) c idc img
                      (bootstrap (demo_world true) 2 aspectRatio (demo_store four_frames)).1.1
                      (bootstrap (demo_world true) 2 aspectRatio (demo_store four_frames)).1.2).1
            /\ charucoIds !! i
               = Some (interpolateCornersCharuco (demo_world true) c idc img
                         (bootstrap (demo_world true) 2 aspectRatio (demo_store four_frames)).1.1
                         (bootstrap (demo_world true) 2 aspectRatio (demo_store four_frames)).1.2).2.
Proof.
  assert (Hok : store_ok (demo_store four_frames)) by (apply demo_store_ok; reflexivity).
  assert (Hn : (4 <= length (allCorners (demo_store four_frames)))%nat) by (cbn; lia).
  split; [exact Hok | split; [exact Hn |]].
  apply (every_frame_passed_to_board_solver (demo_world true) "outFile.txt" 2 aspectRatio
           (demo_store four_frames) Hok Hn).
Defined.

(** Four committed frames, the second of which yields no board corner:
    its empty entries are passed to the board solver, between those of
    its neighbours, and nothing is reported. *)
Lemma empty_frame_passed_to_board_solver :
  board_corners (demo_world true) 2 aspectRatio
    (committed (demo_world true) (demo_cam four_frames)) !! 1%nat = Some ([], [])
  /\ trace (main (demo_world true) (demo_cam four_frames))
     = ImWrite "charImg.png"
       :: trace (capture (demo_world true) false (demo_cam four_frames) empty_store)
       ++ [ stageA_call 2 aspectRatio
              (committed (demo_world true) (demo_cam four_frames));
            CallCalibrateCameraCharuco
              [[demo_point 0]; []; [demo_point 0; demo_point 1]; [demo_point 0]]
              [[0]; []; [0; 1]; [0]]
              (mkSize 1280 720) (demo_matrix 800%float) [[0; 0; 0; 0; 0]]%float 2 ]
       ++ report_events (demo_world true) "outFile.txt" 2 aspectRatio
            (committed (demo_world true) (demo_cam four_frames))
  /\ existsb is_cerr (trace (main (demo_world true) (demo_cam four_frames))) = false.
Proof. vm_compute. repeat split; reflexivity. Qed.

(** C3: the interpolation loop of Stage B appends one entry per committed
    frame, whatever interpolation yields, so the collection whose size is
    tested is as long as the store; and once Stage B is reached (a frame
    was committed) [InsufficientCalibrationData] is reported exactly when
    fewer than four frames were committed. *)
Theorem check_depends_on_frame_count_only W out flags r st K D :
  store_ok st ->
  (exists charucoCorners charucoIds filteredImages,
      interpolate_frames W st (int_of_size (length (allCorners st))) K D
      = mret (charucoCorners, charucoIds, filteredImages)
      /\ length charucoCorners = length (allCorners st)
      /\ ((length charucoCorners <? 4)%nat = true <-> (length (allCorners st) < 4)%nat))
  /\ ((0 < length (allCorners st))%nat ->
      (In InsufficientCalibrationData (trace (calibrate W out flags r st))
       <-> (length (allCorners st) < 4)%nat)).
Proof.
  intros Hok. pose proof Hok as (Hagree & Himgs & Hfit).
  pose proof (Forall2_length _ _ _ Hagree) as Hids.
  split.
  - exists (interpolated W K D st).*1, (interpolated W K D st).*2, (allImgs st).
    assert (Hlen : length (interpolated W K D st) = length (allCorners st)).
    { unfold interpolated. rewrite length_fmap. apply length_frames; lia. }
    split; [| split].
    + rewrite int_of_size_small by exact Hfit.
      rewrite interpolate_frames_spec by lia.
      rewrite !take_ge by lia. reflexivity.
    + rewrite length_fmap. exact Hlen.
    + rewrite length_fmap, Hlen. apply Nat.ltb_lt.
  - intros Hpos. rewrite (calibrate_spec W out flags r st Hok).
    unfold calibrate_trace, trace, fst.
    destruct (Nat.eqb_spec (length (allCorners st)) 0); [lia |].
    destruct (Nat.ltb_spec (length (allCorners st)) 4) as [Hlt | Hge].
    + split; intros _; [exact Hlt |]. right. left. reflexivity.
    + split; [| lia]. intros Hin. exfalso.
      destruct (can_write W out);
        destruct Hin as [H | [H | Hin]]; try discriminate H.
      * exact (not_insufficient_report W out flags r st Hin).
      * destruct Hin as [H | []]. discriminate H.
Qed.

(** Four committed frames without a board corner: the check does not
    fire. *)
Lemma check_depends_on_frame_count_only_witness :
  store_ok (demo_store four_empty_frames)
  /\ (exists charucoCorners charucoIds filteredImages,
        interpolate_frames (demo_world true) (demo_store four_empty_frames)
          (int_of_size (length (allCorners (demo_store four_empty_frames))))
          (demo_matrix 800%float) []
        = mret (charucoCorners, charucoIds, filteredImages)
        /\ length charucoCorners = length (allCorners (demo_store four_empty_frames))
        /\ ((length charucoCorners <? 4)%nat = true
            <-> (length (allCorners (demo_store four_empty_frames)) < 4)%nat))
  /\ ((0 < length (allCorners (demo_store four_empty_frames)))%nat ->
      (In InsufficientCalibrationData
         (trace (calibrate (demo_world true) "outFile.txt" 2 aspectRatio
                   (demo_store four_empty_frames)))
       <-> (length (allCorners (demo_store four_empty_frames)) < 4)%nat)).
Proof.
  assert (Hok : store_ok (demo_store four_empty_frames))
    by (apply demo_store_ok; reflexivity).
  split; [exact Hok |].
  apply (check_depends_on_frame_count_only (demo_world true) "outFile.txt" 2 aspectRatio
           (demo_store four_empty_frames) (demo_matrix 800%float) [] Hok).
Defined.

(** C4: when the fix-aspect-ratio flag is set with value [r] and a frame
    was committed, the marker solver is called with the identity-like
    matrix whose (0,0) entry is [r]; with four frames or more, the board
    solver is called with the camera matrix and distortion coefficients
    that the marker solver left. *)
Theorem seeded_matrix_reaches_marker_solver W out flags r st :
  store_ok st ->
  flag_set flags CALIB_FIX_ASPECT_RATIO = true ->
  (0 < length (allCorners st))%nat ->
  Mat_at [[r; 0; 0]; [0; 1; 0]; [0; 0; 1]]%float 0 0 = Some r
  /\ bootstrap W flags r st
     = calibrateCameraAruco W (concat (allCorners st)) (concat (allIds st))
         (marker_counts (allCorners st)) (imgSize st)
         [[r; 0; 0]; [0; 1; 0]; [0; 0; 1]]%float [] flags
  /\ exists rest,
       trace (calibrate W out flags r st)
       = CallCalibrateCameraAruco (concat (allCorners st)) (concat (allIds st))
           (marker_counts (allCorners st)) (imgSize st)
           [[r; 0; 0]; [0; 1; 0]; [0; 0; 1]]%float [] flags
         :: rest
       /\ ((4 <= length (allCorners st))%nat ->
           exists charucoCorners charucoIds rest',
             rest = CallCalibrateCameraCharuco charucoCorners charucoIds (imgSize st)
                      (bootstrap W flags r st).1.1 (bootstrap W flags r st).1.2 flags
                    :: rest').
Proof.
  intros Hok Hflag Hpos.
  assert (Hseed : seeded_matrix flags r = [[r; 0; 0]; [0; 1; 0]; [0; 0; 1]]%float).
  { unfold seeded_matrix. rewrite Hflag. reflexivity. }
  split; [reflexivity | split].
  { unfold bootstrap. rewrite Hseed. reflexivity. }
  rewrite (calibrate_spec W out flags r st Hok).
  unfold calibrate_trace, trace, fst, stageA_call. rewrite Hseed.
  destruct (Nat.eqb_spec (length (allCorners st)) 0); [lia |].
  destruct (Nat.ltb_spec (length (allCorners st)) 4) as [Hlt | Hge].
  - eexists. split; [reflexivity | lia].
  - destruct (can_write W out); (eexists; split; [reflexivity |]);
      intros _; unfold stageB_call; eauto.
Qed.

Lemma seeded_matrix_reaches_marker_solver_witness :
  store_ok (demo_store four_frames)
  /\ flag_set 2 CALIB_FIX_ASPECT_RATIO = true
  /\ (0 < length (allCorners (demo_store four_frames)))%nat
  /\ Mat_at [[aspectRatio; 0; 0]; [0; 1; 0]; [0; 0; 1]]%float 0 0 = Some aspectRatio
  /\ bootstrap (demo_world true) 2 aspectRatio (demo_store four_frames)
     = calibrateCameraAruco (demo_world true)
         (concat (allCorners (demo_store four_frames)))
         (concat (allIds (demo_store four_frames)))
         (marker_counts (allCorners (demo_store four_frames)))
         (imgSize (demo_store four_frames))
         [[aspectRatio; 0; 0]; [0; 1; 0]; [0; 0; 1]]%float [] 2
  /\ exists rest,
       trace (calibrate (demo_world true) "outFile.txt" 2 aspectRatio (demo_store four_frames))
       = CallCalibrateCameraAruco
           (concat (allCorners (demo_store four_frames)))
           (concat (allIds (demo_store four_frames)))
           (marker_counts (allCorners (demo_store four_frames)))
           (imgSize (demo_store four_frames))
           [[aspectRatio; 0; 0]; [0; 1; 0]; [0; 0; 1]]%float [] 2
         :: rest
       /\ ((4 <= length (allCorners (demo_store four_frames)))%nat ->
           exists charucoCorners charucoIds rest',
             rest = CallCalibrateCameraCharuco charucoCorners charucoIds
                      (imgSize (demo_store four_frames))
                      (bootstrap (demo_world true) 2 aspectRatio (demo_store four_frames)).1.1
                      (bootstrap (demo_world true) 2 aspectRatio (demo_store four_frames)).1.2
                      2
                    :: rest').
Proof.
  assert (Hok : store_ok (demo_store four_frames)) by (apply demo_store_ok; reflexivity).
  assert (Hflag : flag_set 2 CALIB_FIX_ASPECT_RATIO = true) by reflexivity.
  assert (Hpos : (0 < length (allCorners (demo_store four_frames)))%nat) by (cbn; lia).
  split; [exact Hok | split; [exact Hflag | split; [exact Hpos |]]].
  apply (seeded_matrix_reaches_marker_solver (demo_world true) "outFile.txt" 2 aspectRatio
           (demo_store four_frames) Hok Hflag Hpos).
Defined.

(** In [main] the flag is set and the aspect ratio is 1.0; the marker
    solver of [demo_world] leaves a focal length of 800, and that is the
    (0,0) entry of the camera matrix the board solver is called with. *)
Lemma board_solver_gets_bootstrap_matrix :
  flag_set 2 CALIB_FIX_ASPECT_RATIO = true
  /\ In (CallCalibrateCameraCharuco [[]; []; []; []] [[]; []; []; []] (mkSize 1280 720)
           (demo_matrix 800%float) [[0; 0; 0; 0; 0]]%float 2)
        (trace (main (demo_world true) (demo_cam four_empty_frames)))
  /\ Mat_at (demo_matrix 800%float) 0 0 = Some 800%float
  /\ Mat_at (demo_matrix 800%float) 0 0 <> Some aspectRatio.
Proof.
  split; [reflexivity | split; [| split; [reflexivity |]]].
  - vm_compute. do 10 right. left. reflexivity.
  - intros H.
    apply (f_equal (fun o => match o with
                             | Some x => PrimFloat.eqb x 1%float
                             | None => false
                             end)) in H.
    vm_compute in H. discriminate H.
Qed.

(** * Failures before and after the calibration *)

(** C7: when the capture loop ends without a committed frame, [main]
    reports [NoDataError] and returns: no solver is called and the output
    file is neither created nor written. *)
Theorem no_frames_no_data W cam :
  can_read W "detectIn.yml" = true ->
  length (allIds (committed W cam)) = 0%nat ->
  main W cam = ([ImWrite "charImg.png"; NoDataError], Return 0)
  /\ existsb is_solver_call (trace (main W cam)) = false
  /\ existsb (writes_file "outFile.txt") (trace (main W cam)) = false.
Proof.
  intros Hread Hnone.
  assert (Heq : main W cam = ([ImWrite "charImg.png"; NoDataError], Return 0)).
  { rewrite (main_spec W cam Hread).
    destruct (capture_facts W false cam empty_store) as (t & st & Hcap & _ & Hsame & _).
    assert (Hst : committed W cam = st) by (unfold committed; rewrite Hcap; reflexivity).
    rewrite Hst in *. destruct (Hsame Hnone) as [-> ->].
    rewrite Hcap. reflexivity. }
  rewrite Heq. repeat split; reflexivity.
Qed.

Lemma no_frames_no_data_witness :
  can_read (demo_world true) "detectIn.yml" = true
  /\ length (allIds (committed (demo_world true) idle_cam)) = 0%nat
  /\ main (demo_world true) idle_cam = ([ImWrite "charImg.png"; NoDataError], Return 0)
  /\ existsb is_solver_call (trace (main (demo_world true) idle_cam)) = false
  /\ existsb (writes_file "outFile.txt") (trace (main (demo_world true) idle_cam)) = false.
Proof.
  assert (Hread : can_read (demo_world true) "detectIn.yml" = true) by reflexivity.
  assert (Hnone : length (allIds (committed (demo_world true) idle_cam)) = 0%nat)
    by (vm_compute; reflexivity).
  split; [exact Hread | split; [exact Hnone |]].
  apply (no_frames_no_data (demo_world true) idle_cam Hread Hnone).
Defined.

(** C9: when the output file cannot be opened for writing,
    [saveCameraParams] returns [false] and nothing is written; the
    calibration, both solvers called, then reports [PersistenceError] and
    returns: the errors are not printed and there is no output file. *)
Theorem unwritable_output_loses_result W out flags r st :
  store_ok st ->
  (4 <= length (allCorners st))%nat ->
  can_write W out = false ->
  (forall sz a K D err, saveCameraParams W out sz a flags K D err = ([], Val false))
  /\ calibrate W out flags r st
     = ([stageA_call flags r st; stageB_call W flags r st; PersistenceError], Return 0)
  /\ existsb (writes_file out) (trace (calibrate W out flags r st)) = false.
Proof.
  intros Hok Hn Hwrite.
  assert (Heq : calibrate W out flags r st
                = ([stageA_call flags r st; stageB_call W flags r st; PersistenceError],
                   Return 0)).
  { rewrite (calibrate_spec W out flags r st Hok). by_frame_count st.
    rewrite Hwrite. reflexivity. }
  split; [| split; [exact Heq |]].
  - intros sz a K D err. rewrite saveCameraParams_spec, Hwrite. reflexivity.
  - rewrite Heq. reflexivity.
Qed.

Lemma unwritable_output_loses_result_witness :
  store_ok (demo_store four_frames)
  /\ (4 <= length (allCorners (demo_store four_frames)))%nat
  /\ can_write (demo_world false) "outFile.txt" = false
  /\ (forall sz a K D err,
        saveCameraParams (demo_world false) "outFile.txt" sz a 2 K D err = ([], Val false))
  /\ calibrate (demo_world false) "outFile.txt" 2 aspectRatio (demo_store four_frames)
     = ([stageA_call 2 aspectRatio (demo_store four_frames);
         stageB_call (demo_world false) 2 aspectRatio (demo_store four_frames);
         PersistenceError], Return 0)
  /\ existsb (writes_file "outFile.txt")
       (trace (calibrate (demo_world false) "outFile.txt" 2 aspectRatio
                 (demo_store four_frames))) = false.
Proof.
  assert (Hok : store_ok (demo_store four_frames)) by (apply demo_store_ok; reflexivity).
  assert (Hn : (4 <= length (allCorners (demo_store four_frames)))%nat) by (cbn; lia).
  assert (Hwrite : can_write (demo_world false) "outFile.txt" = false) by reflexivity.
  split; [exact Hok | split; [exact Hn | split; [exact Hwrite |]]].
  apply (unwritable_output_loses_result (demo_world false) "outFile.txt" 2 aspectRatio
           (demo_store four_frames) Hok Hn Hwrite).
Defined.

(** * More on the capture loop *)

Lemma to_char_low_byte (k : Z) : to_char (k mod 256) = to_char k.
Proof.
  unfold to_char, wrap. change (2 ^ (8 - 1)) with 128. change (2 ^ 8) with 256.
  rewrite Zplus_mod_idemp_l. reflexivity.
Qed.

Lemma push_frames_nil (st : Store) : push_frames st [] = st.
Proof. destruct st. unfold push_frames. simpl. rewrite !app_nil_r. reflexivity. Qed.

Lemma push_frames_cons (st : Store) (corners : list MarkerCorners) (ids : list Z)
    (image : Image) (new : list (list MarkerCorners * list Z * Image)) :
  push_frames {| allCorners := allCorners st ++ [corners];
                 allIds := allIds st ++ [ids];
                 allImgs := allImgs st ++ [image];
                 imgSize := img_size image |} new
  = push_frames st ((corners, ids, image) :: new).
Proof.
  unfold push_frames. cbn [allCorners allIds allImgs imgSize].
  rewrite !fmap_cons, <- !app_assoc, last_cons. cbn [fst snd app].
  destruct (last new); reflexivity.
Qed.

Lemma positive_size_nonempty {A} (l : list A) :
  (int_of_size (length l) >? 0) = true -> l <> [].
Proof. intros H ->. vm_compute in H. discriminate H. Qed.

(** The capture loop in closed form: the frames it adds, each with the
    markers detected in it, are taken in order from the frames grabbed. *)
Lemma capture_closed_form W r cam st :
  exists new,
    capture W r cam st = (flat_map (fun f => frame_log f.2) new, Val (push_frames st new))
    /\ sublist new.*2 cam.*1
    /\ Forall (fun f => (f.1.1, f.1.2) = detected W r f.2 /\ f.1.2 <> []) new.
Proof.
  revert st. induction cam as [| [image pressed] cam IH]; intros st.
  - exists []. rewrite push_frames_nil. repeat split; constructor.
  - cbn [capture]. pose proof (eq_refl (detected W r image)) as Hdet.
    unfold detected at 2 in Hdet.
    destruct (detectMarkers W image) as [corners0 ids0].
    destruct (if r then refineDetectedMarkers W image corners0 ids0 else (corners0, ids0))
      as [corners ids].
    destruct (to_char pressed =? 27).
    { exists []. rewrite push_frames_nil. repeat split; try constructor.
      apply sublist_nil_l. }
    destruct ((to_char pressed =? 99) && (int_of_size (length ids) >? 0)) eqn:Hadd.
    + apply andb_prop in Hadd as [_ Hids].
      match goal with |- context [capture W r cam ?s] =>
        destruct (IH s) as (new & Heq & Hsub & Hall); rewrite Heq
      end.
      exists ((corners, ids, image) :: new). split; [| split].
      * rewrite !bind_emit, push_frames_cons. reflexivity.
      * rewrite !fmap_cons. apply sublist_skip, Hsub.
      * constructor; [| exact Hall]. cbn [fst snd].
        split; [symmetry; exact Hdet | apply positive_size_nonempty, Hids].
    + destruct (IH st) as (new & Heq & Hsub & Hall).
      exists new. split; [exact Heq | split; [| exact Hall]].
      rewrite fmap_cons. apply sublist_cons, Hsub.
Qed.

Lemma committed_closed_form W cam :
  exists new,
    trace (capture W false cam empty_store) = flat_map (fun f => frame_log f.2) new
    /\ committed W cam = push_frames empty_store new
    /\ sublist new.*2 cam.*1
    /\ Forall (fun f => (f.1.1, f.1.2) = detected W false f.2 /\ f.1.2 <> []) new.
Proof.
  destruct (capture_closed_form W false cam empty_store) as (new & Heq & Hsub & Hall).
  exists new. unfold committed. rewrite Heq. repeat split; assumption.
Qed.

(** X1: the capture loop only appends.  From any store it leaves the store
    extended, in its three vectors at once, by frames taken in order from
    the frames grabbed, each with the markers detected in it; the image
    size becomes that of the last frame added. *)
Theorem capture_only_appends W r cam st :
  exists new,
    outcome (capture W r cam st) = Val (push_frames st new)
    /\ sublist new.*2 cam.*1
    /\ Forall (fun f => (f.1.1, f.1.2) = detected W r f.2) new.
Proof.
  destruct (capture_closed_form W r cam st) as (new & Heq & Hsub & Hall).
  exists new. rewrite Heq. repeat split; [exact Hsub |].
  eapply Forall_impl; [exact Hall |]. intros f [Hf _]. exact Hf.
Qed.

(** X2: the lines the capture loop prints are "Frame captured" and the
    image size, once for every frame it adds, in order, and nothing else. *)
Theorem capture_prints_added_frames W cam :
  trace (capture W false cam empty_store)
  = flat_map frame_log (allImgs (committed W cam)).
Proof.
  destruct (committed_closed_form W cam) as (new & -> & -> & _).
  cbn [push_frames allImgs empty_store app].
  induction new as [| f new IH]; [reflexivity |].
  rewrite fmap_cons. cbn [flat_map]. rewrite IH. reflexivity.
Qed.

(** X3: the image size handed to the solvers and written to the file is
    that of the last frame added; it is 0 x 0 when no frame was added. *)
Theorem image_size_of_last_frame W cam :
  imgSize (committed W cam)
  = match last (allImgs (committed W cam)) with
    | Some image => img_size image
    | None => mkSize 0 0
    end.
Proof.
  destruct (committed_closed_form W cam) as (new & _ & -> & _).
  cbn [push_frames allImgs imgSize empty_store app].
  rewrite fmap_last. destruct (last new); reflexivity.
Qed.

(** X4: a frame in which no marker was detected is never added, whatever
    key is pressed: every frame of the store has an identifier. *)
Theorem committed_frames_have_markers W cam :
  Forall (fun ids => ids <> []) (allIds (committed W cam)).
Proof.
  destruct (committed_closed_form W cam) as (new & _ & -> & _ & Hall).
  cbn [push_frames allIds empty_store app].
  induction Hall as [| f new [_ Hf] _ IH]; [constructor |].
  rewrite !fmap_cons. constructor; assumption.
Qed.

(** X5: the key is compared after the cast to [char]: only the low byte of
    what [waitKey] returns counts, so a code such as 0x100063 adds the
    frame like [c] does. *)
Theorem capture_reads_low_byte_of_key W r cam st :
  capture W r (map (fun f => (f.1, f.2 mod 256)) cam) st = capture W r cam st.
Proof.
  revert st. induction cam as [| [image pressed] cam IH]; intros st; [reflexivity |].
  cbn [map capture fst snd]. rewrite to_char_low_byte.
  destruct (detectMarkers W image) as [corners0 ids0].
  destruct (if r then refineDetectedMarkers W image corners0 ids0 else (corners0, ids0))
    as [corners ids].
  destruct (to_char pressed =? 27); [reflexivity |].
  destruct ((to_char pressed =? 99) && (int_of_size (length ids) >? 0));
    rewrite IH; reflexivity.
Qed.

(** X6: ESC ends the session at once: the frame shown when it is pressed
    and every later frame are ignored. *)
Theorem capture_stops_at_escape W r pre image post st :
  capture W r (pre ++ (image, 27) :: post) st = capture W r pre st.
Proof.
  revert st. induction pre as [| [image' pressed] pre IH]; intros st.
  - cbn [app capture].
    destruct (detectMarkers W image) as [corners0 ids0].
    destruct (if r then refineDetectedMarkers W image corners0 ids0 else (corners0, ids0)).
    reflexivity.
  - cbn [app capture].
    destruct (detectMarkers W image') as [corners0 ids0].
    destruct (if r then refineDetectedMarkers W image' corners0 ids0 else (corners0, ids0))
      as [corners ids].
    destruct (to_char pressed =? 27); [reflexivity |].
    destruct ((to_char pressed =? 99) && (int_of_size (length ids) >? 0));
      rewrite IH; reflexivity.
Qed.

Lemma capture_without_refine W refine cam st :
  capture (with_refine W refine) false cam st = capture W false cam st.
Proof.
  revert st. induction cam as [| [image pressed] cam IH]; intros st; [reflexivity |].
  cbn [capture with_refine detectMarkers].
  destruct (detectMarkers W image) as [corners ids].
  destruct (to_char pressed =? 27); [reflexivity |].
  destruct ((to_char pressed =? 99) && (int_of_size (length ids) >? 0));
    rewrite IH; reflexivity.
Qed.

(** X7: [main] never refines the detected markers: [refineStrategy] is
    false, and a run is the same whatever [refineDetectedMarkers] would
    do. *)
Theorem main_ignores_refinement W refine cam :
  main (with_refine W refine) cam = main W cam.
Proof.
  unfold main. rewrite capture_without_refine. reflexivity.
Qed.

(** X8: with a detector that returns one identifier per marker, every
    frame of the store has as many identifiers as marker corner sets, the
    three vectors have one entry per frame, and there are at most as many
    frames as were grabbed. *)
Theorem committed_store_aligned W cam :
  detector_ok W ->
  ids_agree (allCorners (committed W cam)) (allIds (committed W cam))
  /\ length (allIds (committed W cam)) = length (allCorners (committed W cam))
  /\ length (allImgs (committed W cam)) = length (allCorners (committed W cam))
  /\ (length (allCorners (committed W cam)) <= length cam)%nat.
Proof.
  intros Hdet.
  destruct (capture_facts W false cam empty_store) as (t & st & Heq & Hlen & _ & Hc & Hi).
  assert (Hst : committed W cam = st) by (unfold committed; rewrite Heq; reflexivity).
  rewrite Hst. cbn [empty_store allIds allCorners allImgs length] in Hlen, Hc, Hi.
  specialize (Hc eq_refl). specialize (Hi eq_refl).
  repeat split; try lia.
  eapply capture_ids_agree; [exact Hdet | | exact Heq]. constructor.
Qed.

Lemma demo_detector_ok (writable : bool) : detector_ok (demo_world writable).
Proof. intros img. cbn. rewrite !length_map. reflexivity. Defined.

Lemma committed_store_aligned_witness :
  detector_ok (demo_world true)
  /\ ids_agree (allCorners (committed (demo_world true) (demo_cam four_frames)))
       (allIds (committed (demo_world true) (demo_cam four_frames)))
  /\ length (allIds (committed (demo_world true) (demo_cam four_frames)))
     = length (allCorners (committed (demo_world true) (demo_cam four_frames)))
  /\ length (allImgs (committed (demo_world true) (demo_cam four_frames)))
     = length (allCorners (committed (demo_world true) (demo_cam four_frames)))
  /\ (length (allCorners (committed (demo_world true) (demo_cam four_frames))) <= length (demo_cam four_frames))%nat.
Proof.
  split; [apply demo_detector_ok |].
  apply (committed_store_aligned (demo_world true) (demo_cam four_frames) (demo_detector_ok true)).
Defined.

(** * More on Stage A: the concatenation on any two vectors *)

Lemma bind_undefined_l {A B} (f : A -> Prog B) : (undefined ≫= f) = undefined.
Proof. reflexivity. Qed.

(** A loop that runs to its end keeps an invariant its rounds keep. *)
Lemma for_each_seq_val {S} (I : nat -> S -> Prop) (body : nat -> S -> Prog S)
    (n a : nat) (s0 s : S) (t : list event) :
  (forall i s1 t1 s2, (a <= i < a + n)%nat -> I i s1 ->
     body i s1 = (t1, Val s2) -> I (Datatypes.S i) s2) ->
  I a s0 ->
  for_each (seq a n) body s0 = (t, Val s) ->
  I (a + n)%nat s.
Proof.
  revert a s0 t. induction n as [| n IH]; intros a s0 t Hstep H0 Heq; simpl in Heq.
  - injection Heq as _ <-. rewrite Nat.add_0_r. exact H0.
  - destruct (body a s0) as [t1 [s1 | code |]] eqn:Hbody.
    + rewrite bind_val in Heq.
      destruct (for_each (seq (Datatypes.S a) n) body s1) as [t2 r2] eqn:Hrest.
      cbn [trace outcome fst snd] in Heq. injection Heq as _ ->.
      replace (a + Datatypes.S n)%nat with (Datatypes.S a + n)%nat by lia.
      apply (IH (Datatypes.S a) s1 t2).
      * intros i s1' t1' s2' Hi. apply Hstep. lia.
      * apply (Hstep a s0 t1 s1); [lia | exact H0 | exact Hbody].
      * exact Hrest.
    + rewrite bind_return in Heq. discriminate Heq.
    + rewrite bind_undefined in Heq. discriminate Heq.
Qed.

(** A loop whose rounds all run to their end runs to its end. *)
Lemma for_each_seq_total {S} (I : nat -> S -> Prop) (body : nat -> S -> Prog S)
    (n a : nat) (s0 : S) :
  (forall i s1, (a <= i < a + n)%nat -> I i s1 ->
     exists s2, body i s1 = mret s2 /\ I (Datatypes.S i) s2) ->
  I a s0 ->
  exists s, for_each (seq a n) body s0 = mret s /\ I (a + n)%nat s.
Proof.
  revert a s0. induction n as [| n IH]; intros a s0 Hstep H0; simpl.
  - exists s0. rewrite Nat.add_0_r. split; [reflexivity | exact H0].
  - destruct (Hstep a s0 ltac:(lia) H0) as (s1 & -> & H1).
    rewrite bind_ret_l.
    destruct (IH (Datatypes.S a) s1) as (s & Heq & Hs).
    + intros i s1' Hi. apply Hstep. lia.
    + exact H1.
    + exists s. replace (a + Datatypes.S n)%nat with (Datatypes.S a + n)%nat by lia.
      split; assumption.
Qed.

Lemma at_val {A} (v : list A) (i : nat) (t : list event) (x : A) :
  at_ v i = (t, Val x) -> v !! i = Some x.
Proof.
  unfold at_. destruct (v !! i); [| discriminate]. intros [= _ ->]. reflexivity.
Qed.

(** What a concatenation that runs to its end has done. *)
Lemma concatenate_val (cs : list (list MarkerCorners)) (ids : list (list Z))
    (t : list event) (cc : list MarkerCorners) (ci cnt : list Z) :
  concatenate cs ids = (t, Val (cc, ci, cnt)) ->
  concatenate_in_range cs ids
  /\ cc = concat cs /\ length ci = length cc /\ cnt = marker_counts cs.
Proof.
  intros Heq. unfold concatenate, for_upto in Heq.
  pose (I := fun (k : nat) (s : list MarkerCorners * list Z * list Z) =>
    (forall k' c, (k' < k)%nat -> cs !! k' = Some c -> c <> [] ->
       exists idc, ids !! k' = Some idc /\ (length c <= length idc)%nat)
    /\ s.1.1 = concat (take k cs) /\ length s.1.2 = length s.1.1
    /\ s.2 = marker_counts (take k cs)).
  apply (for_each_seq_val I) in Heq.
  - destruct Heq as (Hrange & Hcc & Hlen & Hcnt). cbn [fst snd] in Hcc, Hlen, Hcnt.
    rewrite take_ge in Hcc, Hcnt by lia.
    split; [| auto].
    intros k c Hk Hne.
    apply Hrange; [apply lookup_lt_Some in Hk; lia | exact Hk | exact Hne].
  - clear Heq. intros i [[cc1 ci1] cnt1] t1 [[cc2 ci2] cnt2] Hi
      (Hrange & Hcc & Hlen & Hcnt) Hbody.
    cbn [fst snd] in Hcc, Hlen, Hcnt.
    destruct (lookup_lt_is_Some_2 cs i ltac:(lia)) as [c Hc].
    rewrite (at_lookup _ _ _ Hc), bind_ret_l in Hbody.
    match type of Hbody with (?inner ≫= _) = _ =>
      destruct inner as [t2 [[cc3 ci3] | code |]] eqn:Hinner
    end; [| discriminate Hbody ..].
    rewrite bind_val in Hbody. cbn [trace outcome fst snd] in Hbody.
    injection Hbody as _ <- <- <-.
    pose (J := fun (j : nat) (s : list MarkerCorners * list Z) =>
      (forall j', (j' < j)%nat ->
         exists idc, ids !! i = Some idc /\ (j' < length idc)%nat)
      /\ s.1 = cc1 ++ take j c /\ length s.2 = length s.1).
    unfold for_upto in Hinner. apply (for_each_seq_val J) in Hinner.
    + destruct Hinner as (Hj & Hcc3 & Hlen3). cbn [fst snd] in Hcc3, Hlen3.
      rewrite take_ge in Hcc3 by lia.
      unfold I. cbn [fst snd]. rewrite (take_S_r _ _ _ Hc).
      split; [| split; [| split]].
      * intros k' c' Hk' Hc' Hne.
        destruct (decide (k' = i)) as [-> | Hneq].
        -- rewrite Hc in Hc'. injection Hc' as <-.
           destruct (Hj (pred (length c))) as (idc & Hidc & Hlt).
           { destruct c; [contradiction | cbn; lia]. }
           exists idc. split; [exact Hidc | lia].
        -- apply Hrange; [lia | exact Hc' | exact Hne].
      * rewrite concat_app. cbn [concat]. rewrite app_nil_r, <- Hcc. exact Hcc3.
      * exact Hlen3.
      * unfold marker_counts. rewrite map_app. fold (marker_counts (take i cs)).
        rewrite <- Hcnt. reflexivity.
    + clear Hinner. intros j [cc4 ci4] t4 [cc5 ci5] Hj (Hprev & Hcc4 & Hlen4) Hstep.
      cbn [fst snd] in Hcc4, Hlen4.
      destruct (lookup_lt_is_Some_2 c j ltac:(lia)) as [pt Hpt].
      rewrite (at_lookup _ _ _ Hpt), bind_ret_l in Hstep.
      destruct (ids !! i) as [idc |] eqn:Hidc;
        [| unfold at_ in Hstep; rewrite Hidc, bind_undefined_l in Hstep;
           discriminate Hstep].
      rewrite (at_lookup _ _ _ Hidc), bind_ret_l in Hstep.
      destruct (idc !! j) as [id |] eqn:Hid;
        [| unfold at_ in Hstep; rewrite Hid, bind_undefined_l in Hstep;
           discriminate Hstep].
      rewrite (at_lookup _ _ _ Hid), bind_ret_l in Hstep.
      injection Hstep as _ <- <-.
      unfold J. cbn [fst snd]. split; [| split].
      * intros j' Hj'. destruct (decide (j' = j)) as [-> | Hneq].
        -- exists idc. split; [reflexivity | apply (lookup_lt_Some _ _ _ Hid)].
        -- apply Hprev. lia.
      * rewrite (take_S_r _ _ _ Hpt), Hcc4, app_assoc. reflexivity.
      * rewrite !length_app, Hlen4. reflexivity.
    + unfold J. cbn [fst snd]. split; [intros j' Hj'; lia |].
      rewrite app_nil_r. split; [reflexivity | exact Hlen].
  - unfold I. cbn [fst snd]. split; [intros k' c Hk'; lia |]. repeat split.
Qed.

(** X9: the concatenation of Stage A is defined exactly when its indexing
    stays in range: when every frame that has markers has an identifier
    vector at least as long as its vector of corners.  A frame with fewer
    identifiers than markers is undefined behaviour. *)
Theorem concatenate_defined_iff_in_range
    (cs : list (list MarkerCorners)) (ids : list (list Z)) :
  (exists flat, concatenate cs ids = mret flat) <-> concatenate_in_range cs ids.
Proof.
  split.
  - intros [[[cc ci] cnt] Heq]. apply (concatenate_val _ _ _ _ _ _ Heq).
  - intros Hrange. unfold concatenate, for_upto.
    destruct (for_each_seq_total (fun _ _ => True)
                (fun i '(allCornersConcatenated, allIdsConcatenated, markerCounterPerFrame) =>
                   corners_i ← at_ cs i;
                   let markerCounterPerFrame :=
                     markerCounterPerFrame ++ [int_of_size (length corners_i)] in
                   '(allCornersConcatenated, allIdsConcatenated) ←
                     for_upto (length corners_i)
                       (fun j '(allCornersConcatenated, allIdsConcatenated) =>
                          corner ← at_ corners_i j;
                          ids_i ← at_ ids i;
                          id ← at_ ids_i j;
                          mret (allCornersConcatenated ++ [corner],
                                allIdsConcatenated ++ [id]))
                       (allCornersConcatenated, allIdsConcatenated);
                   mret (allCornersConcatenated, allIdsConcatenated,
                         markerCounterPerFrame))
                (length cs) 0 ([], [], [])) as (s & Heq & _); [| exact I | eauto].
    intros i [[cc1 ci1] cnt1] Hi _.
    destruct (lookup_lt_is_Some_2 cs i ltac:(lia)) as [c Hc].
    rewrite (at_lookup _ _ _ Hc), bind_ret_l. unfold for_upto.
    match goal with |- context [for_each (seq 0 (length c)) ?body ?s0] =>
      destruct (for_each_seq_total (fun _ _ => True) body (length c) 0 s0)
        as ([cc2 ci2] & Heq & _); [| exact I |]
    end.
    + intros j [cc3 ci3] Hj _.
      destruct (Hrange i c Hc) as (idc & Hidc & Hlen).
      { intros ->. cbn in Hj. lia. }
      destruct (lookup_lt_is_Some_2 c j ltac:(lia)) as [pt Hpt].
      destruct (lookup_lt_is_Some_2 idc j ltac:(lia)) as [id Hid].
      rewrite (at_lookup _ _ _ Hpt), bind_ret_l.
      rewrite (at_lookup _ _ _ Hidc), bind_ret_l.
      rewrite (at_lookup _ _ _ Hid), bind_ret_l. eauto.
    + rewrite Heq, bind_ret_l. eauto.
Qed.

(** X10: whenever the concatenation runs to its end, also on a frame with
    more identifiers than markers, it has no event, the flat corner
    sequence is the frames' corners in frame order, the flat identifier
    sequence has the same length, and there is one count per frame. *)
Theorem concatenate_flat_lengths_agree
    (cs : list (list MarkerCorners)) (ids : list (list Z))
    (t : list event) (cc : list MarkerCorners) (ci cnt : list Z) :
  concatenate cs ids = (t, Val (cc, ci, cnt)) ->
  t = [] /\ cc = concat cs /\ length ci = length cc /\ cnt = marker_counts cs
  /\ length cnt = length cs.
Proof.
  intros Heq.
  destruct (concatenate_val _ _ _ _ _ _ Heq) as (_ & Hcc & Hlen & Hcnt).
  pose proof (concatenate_silent cs ids) as Ht. rewrite Heq in Ht.
  repeat split; try assumption.
  rewrite Hcnt. apply length_map.
Qed.

(** A frame with two markers and three identifiers: the third identifier
    is left out. *)
Lemma concatenate_flat_lengths_agree_witness :
  concatenate [[[demo_point 0]; [demo_point 1]]] [[7; 8; 9]]
  = ([], Val ([[demo_point 0]; [demo_point 1]], [7; 8], [2]))
  /\ ([] : list event) = []
  /\ [[demo_point 0]; [demo_point 1]] = concat [[[demo_point 0]; [demo_point 1]]]
  /\ length [7; 8] = length [[demo_point 0]; [demo_point 1]]
  /\ [2] = marker_counts [[[demo_point 0]; [demo_point 1]]]
  /\ length [2] = length [[[demo_point 0]; [demo_point 1]]].
Proof.
  split; [reflexivity |].
  apply (concatenate_flat_lengths_agree [[[demo_point 0]; [demo_point 1]]] [[7; 8; 9]]
           [] [[demo_point 0]; [demo_point 1]] [7; 8] [2] eq_refl).
Defined.

(** * More on the parameter writer *)

(** X11: when the file can be opened, [saveCameraParams] returns [true]
    and every argument can be read back from the field written for it:
    time stamp, image width and height, flags, camera matrix, distortion
    coefficients and reprojection error; the aspect ratio is there exactly
    when the fix-aspect-ratio flag is set.  No field is written twice. *)
Theorem saved_fields_read_back W out sz a flags K D err :
  can_write W out = true ->
  outcome (saveCameraParams W out sz a flags K D err) = Val true
  /\ (fs_fields out (trace (saveCameraParams W out sz a flags K D err))).*1
     = ["calibration_time"; "image_width"; "image_height"]
       ++ (if flag_set flags CALIB_FIX_ASPECT_RATIO then ["aspectRatio"] else [])
       ++ ["flags"; "camera_matrix"; "distortion_coefficients"; "avg_reprojection_error"]
  /\ fs_get out "calibration_time" (trace (saveCameraParams W out sz a flags K D err))
     = Some (FsString (local_time W))
  /\ fs_get out "image_width" (trace (saveCameraParams W out sz a flags K D err))
     = Some (FsInt (width sz))
  /\ fs_get out "image_height" (trace (saveCameraParams W out sz a flags K D err))
     = Some (FsInt (height sz))
  /\ fs_get out "aspectRatio" (trace (saveCameraParams W out sz a flags K D err))
     = (if flag_set flags CALIB_FIX_ASPECT_RATIO then Some (FsFloat a) else None)
  /\ fs_get out "flags" (trace (saveCameraParams W out sz a flags K D err))
     = Some (FsInt flags)
  /\ fs_get out "camera_matrix" (trace (saveCameraParams W out sz a flags K D err))
     = Some (FsMat K)
  /\ fs_get out "distortion_coefficients"
       (trace (saveCameraParams W out sz a flags K D err))
     = Some (FsMat D)
  /\ fs_get out "avg_reprojection_error"
       (trace (saveCameraParams W out sz a flags K D err))
     = Some (FsDouble err).
Proof.
  intros Hwrite. rewrite saveCameraParams_spec, Hwrite.
  unfold fs_get, fs_fields, save_events, trace, outcome.
  destruct (flag_set flags CALIB_FIX_ASPECT_RATIO);
    cbn [fst snd app flat_map]; rewrite !String.eqb_refl;
    repeat split; reflexivity.
Qed.

Lemma saved_fields_read_back_witness :
  can_write (demo_world true) "outFile.txt" = true
  /\ outcome (saveCameraParams (demo_world true) "outFile.txt" (mkSize 1280 720) 1%float 2
                (demo_matrix 810%float) [[0.125; 0; 0; 0; 0]]%float 0.5%float) = Val true
  /\ fs_get "outFile.txt" "aspectRatio"
       (trace (saveCameraParams (demo_world true) "outFile.txt" (mkSize 1280 720) 1%float 2
                 (demo_matrix 810%float) [[0.125; 0; 0; 0; 0]]%float 0.5%float))
     = Some (FsFloat 1%float)
  /\ fs_get "outFile.txt" "camera_matrix"
       (trace (saveCameraParams (demo_world true) "outFile.txt" (mkSize 1280 720) 1%float 2
                 (demo_matrix 810%float) [[0.125; 0; 0; 0; 0]]%float 0.5%float))
     = Some (FsMat (demo_matrix 810%float)).
Proof.
  assert (Hwrite : can_write (demo_world true) "outFile.txt" = true) by reflexivity.
  pose proof (saved_fields_read_back (demo_world true) "outFile.txt" (mkSize 1280 720)
                1%float 2 (demo_matrix 810%float) [[0.125; 0; 0; 0; 0]]%float 0.5%float
                Hwrite) as (Hret & _ & _ & _ & _ & Hratio & _ & Hmatrix & _).
  split; [exact Hwrite | split; [exact Hret | split; [exact Hratio | exact Hmatrix]]].
Defined.

(** X12: the text [sprintf] formats into [buf] fits: with its terminating
    zero it takes at most 82 of the 1024 bytes, whatever the flags, and
    the longest text is that of the four flags together. *)
Theorem flags_text_fits_buffer (flags : Z) :
  (String.length (flags_text flags) + 1 <= 82)%nat
  /\ (82 <= 1024)%nat
  /\ String.length (flags_text 15) = 81%nat.
Proof.
  split; [| split; [lia | reflexivity]].
  unfold flags_text.
  destruct (flag_set flags CALIB_USE_INTRINSIC_GUESS),
           (flag_set flags CALIB_FIX_ASPECT_RATIO),
           (flag_set flags CALIB_FIX_PRINCIPAL_POINT),
           (flag_set flags CALIB_ZERO_TANGENT_DIST);
    vm_compute; lia.
Qed.

(** * More on the calibration of a well-formed store *)

Lemma report_events_no_solver W out flags r st :
  List.filter is_solver_call (report_events W out flags r st) = [].
Proof.
  unfold report_events, save_events.
  destruct (flag_set flags CALIB_FIX_ASPECT_RATIO); reflexivity.
Qed.

(** X13: the output file is created exactly when four frames or more were
    committed and the file can be opened for writing; in every other run
    no event touches it. *)
Theorem output_file_iff_enough_frames_and_writable W out flags r st :
  store_ok st ->
  existsb (writes_file out) (trace (calibrate W out flags r st))
  = (4 <=? length (allCorners st))%nat && can_write W out.
Proof.
  intros Hok. rewrite (calibrate_spec W out flags r st Hok).
  unfold calibrate_trace, trace, fst.
  destruct (Nat.eqb_spec (length (allCorners st)) 0) as [Hz | Hnz].
  { rewrite Hz. reflexivity. }
  destruct (Nat.ltb_spec (length (allCorners st)) 4) as [Hlt | Hge];
    destruct (Nat.leb_spec 4 (length (allCorners st))); try lia.
  { reflexivity. }
  destruct (can_write W out); [| reflexivity].
  unfold report_events, save_events. cbn [existsb app writes_file stageA_call stageB_call].
  rewrite String.eqb_refl. reflexivity.
Qed.

Lemma output_file_iff_enough_frames_and_writable_witness :
  store_ok (demo_store five_frames)
  /\ existsb (writes_file "outFile.txt")
       (trace (calibrate (demo_world true) "outFile.txt" 2 aspectRatio
                 (demo_store five_frames)))
     = (4 <=? length (allCorners (demo_store five_frames)))%nat
       && can_write (demo_world true) "outFile.txt".
Proof.
  assert (Hok : store_ok (demo_store five_frames)) by (apply demo_store_ok; reflexivity).
  split; [exact Hok |].
  apply (output_file_iff_enough_frames_and_writable (demo_world true) "outFile.txt" 2
           aspectRatio (demo_store five_frames) Hok).
Defined.

(** X14: the marker solver is called once as soon as one frame was
    committed, before the number of frames is tested, so also in a run
    that ends with "Not enough corners"; the board solver is called once,
    after it, with four frames or more.  No solver is called otherwise. *)
Theorem solvers_called_once_in_order W out flags r st :
  store_ok st ->
  List.filter is_solver_call (trace (calibrate W out flags r st))
  = if (length (allCorners st) =? 0)%nat then []
    else if (length (allCorners st) <? 4)%nat then [stageA_call flags r st]
    else [stageA_call flags r st; stageB_call W flags r st].
Proof.
  intros Hok. rewrite (calibrate_spec W out flags r st Hok).
  unfold calibrate_trace, trace, fst.
  destruct (length (allCorners st) =? 0)%nat; [reflexivity |].
  destruct (length (allCorners st) <? 4)%nat; [reflexivity |].
  destruct (can_write W out); [| reflexivity].
  cbn [List.filter is_solver_call stageA_call stageB_call].
  rewrite report_events_no_solver. reflexivity.
Qed.

Lemma solvers_called_once_in_order_witness :
  store_ok (demo_store three_frames)
  /\ List.filter is_solver_call
       (trace (calibrate (demo_world true) "outFile.txt" 2 aspectRatio
                 (demo_store three_frames)))
     = if (length (allCorners (demo_store three_frames)) =? 0)%nat then []
       else if (length (allCorners (demo_store three_frames)) <? 4)%nat
            then [stageA_call 2 aspectRatio (demo_store three_frames)]
            else [stageA_call 2 aspectRatio (demo_store three_frames);
                  stageB_call (demo_world true) 2 aspectRatio (demo_store three_frames)].
Proof.
  assert (Hok : store_ok (demo_store three_frames)) by (apply demo_store_ok; reflexivity).
  split; [exact Hok |].
  apply (solvers_called_once_in_order (demo_world true) "outFile.txt" 2 aspectRatio
           (demo_store three_frames) Hok).
Defined.

(** X15: [main] returns 0 on every path: when the detector parameters
    cannot be read, when too few frames were committed, when the file
    cannot be written and when the calibration is saved.  (The detector
    keeps its contract and fewer than 2^31 frames are grabbed.) *)
Theorem main_always_returns_zero W cam :
  detector_ok W ->
  Z.of_nat (length cam) < 2 ^ 31 ->
  outcome (main W cam) = Return 0.
Proof.
  intros Hdet Hcam. destruct (can_read W "detectIn.yml") eqn:Hread.
  - rewrite (main_calibrated W cam Hread Hdet Hcam). reflexivity.
  - rewrite (main_no_config W cam Hread). reflexivity.
Qed.

Lemma main_always_returns_zero_witness :
  detector_ok (demo_world false)
  /\ Z.of_nat (length (demo_cam four_frames)) < 2 ^ 31
  /\ outcome (main (demo_world false) (demo_cam four_frames)) = Return 0.
Proof.
  assert (Hcam : Z.of_nat (length (demo_cam four_frames)) < 2 ^ 31) by reflexivity.
  split; [apply demo_detector_ok | split; [exact Hcam |]].
  apply (main_always_returns_zero (demo_world false) (demo_cam four_frames)
           (demo_detector_ok false) Hcam).
Defined.

(** X16: when the detector parameter file cannot be read, [main] prints
    "Err DetectIn" on [cerr] and returns at once: the board image is not
    written, no frame is grabbed and nothing else happens. *)
Theorem unreadable_parameters_end_the_run W cam :
  can_read W "detectIn.yml" = false ->
  main W cam = ([Cerr [OStr "Err DetectIn"]], Return 0)
  /\ ~ In (ImWrite "charImg.png") (trace (main W cam))
  /\ main W cam = main W [].
Proof.
  intros Hread. rewrite !(main_no_config W _ Hread). repeat split.
  intros [H | []]. discriminate H.
Qed.

Lemma unreadable_parameters_end_the_run_witness :
  can_read unconfigured_world "detectIn.yml" = false
  /\ main unconfigured_world (demo_cam five_frames) = ([Cerr [OStr "Err DetectIn"]], Return 0)
  /\ ~ In (ImWrite "charImg.png") (trace (main unconfigured_world (demo_cam five_frames)))
  /\ main unconfigured_world (demo_cam five_frames) = main unconfigured_world [].
Proof.
  assert (Hread : can_read unconfigured_world "detectIn.yml" = false) by reflexivity.
  split; [exact Hread |].
  apply (unreadable_parameters_end_the_run unconfigured_world (demo_cam five_frames) Hread).
Defined.

(** X17: in a run that saves the calibration, the camera matrix,
    distortion coefficients and reprojection error written to the file are
    those the board solver left (not the marker solver's), the image size
    and flags written are those of the run, and the run ends with three
    lines: the board solver's error, the marker solver's error and the
    name of the file. *)
Theorem saved_results_are_board_solver_results W out flags r st :
  store_ok st ->
  (4 <= length (allCorners st))%nat ->
  can_write W out = true ->
  fs_get out "camera_matrix" (trace (calibrate W out flags r st))
  = Some (FsMat (calibrateCameraCharuco W
                   (board_corners W flags r st).*1 (board_corners W flags r st).*2
                   (imgSize st) (bootstrap W flags r st).1.1
                   (bootstrap W flags r st).1.2 flags).1.1)
  /\ fs_get out "distortion_coefficients" (trace (calibrate W out flags r st))
     = Some (FsMat (refined W flags r st).1.2)
  /\ fs_get out "avg_reprojection_error" (trace (calibrate W out flags r st))
     = Some (FsDouble (refined W flags r st).2)
  /\ fs_get out "image_width" (trace (calibrate W out flags r st))
     = Some (FsInt (width (imgSize st)))
  /\ fs_get out "image_height" (trace (calibrate W out flags r st))
     = Some (FsInt (height (imgSize st)))
  /\ fs_get out "flags" (trace (calibrate W out flags r st)) = Some (FsInt flags)
  /\ exists before,
       trace (calibrate W out flags r st)
       = before
         ++ [ Cout [OStr "Rep Error: "; ODouble (refined W flags r st).2; OEndl];
              Cout [OStr "Rep Error Aruco: "; ODouble (bootstrap W flags r st).2; OEndl];
              Cout [OStr "Calibration saved to "; OStr out; OEndl] ].
Proof.
  intros Hok Hn Hwrite. rewrite (calibrate_spec W out flags r st Hok).
  unfold trace, fst. by_frame_count st. rewrite Hwrite.
  fold (refined W flags r st).
  split; [| split; [| split; [| split; [| split; [| split]]]]];
    try (unfold fs_get, fs_fields, report_events, save_events, stageA_call, stageB_call;
         destruct (flag_set flags CALIB_FIX_ASPECT_RATIO);
         cbn [fst snd app flat_map]; rewrite !String.eqb_refl; reflexivity).
  unfold report_events.
  exists (stageA_call flags r st :: stageB_call W flags r st
          :: save_events W out (imgSize st) (float_of_double r) flags
               (refined W flags r st).1.1 (refined W flags r st).1.2
               (refined W flags r st).2).
  rewrite <- !app_comm_cons. reflexivity.
Qed.

Lemma saved_results_are_board_solver_results_witness :
  store_ok (demo_store five_frames)
  /\ (4 <= length (allCorners (demo_store five_frames)))%nat
  /\ can_write (demo_world true) "outFile.txt" = true
  /\ fs_get "outFile.txt" "camera_matrix"
       (trace (calibrate (demo_world true) "outFile.txt" 2 aspectRatio
                 (demo_store five_frames)))
     = Some (FsMat (calibrateCameraCharuco (demo_world true)
                      (board_corners (demo_world true) 2 aspectRatio
                         (demo_store five_frames)).*1
                      (board_corners (demo_world true) 2 aspectRatio
                         (demo_store five_frames)).*2
                      (imgSize (demo_store five_frames))
                      (bootstrap (demo_world true) 2 aspectRatio
                         (demo_store five_frames)).1.1
                      (bootstrap (demo_world true) 2 aspectRatio
                         (demo_store five_frames)).1.2 2).1.1).
Proof.
  assert (Hok : store_ok (demo_store five_frames)) by (apply demo_store_ok; reflexivity).
  assert (Hn : (4 <= length (allCorners (demo_store five_frames)))%nat) by (cbn; lia).
  assert (Hwrite : can_write (demo_world true) "outFile.txt" = true) by reflexivity.
  split; [exact Hok | split; [exact Hn | split; [exact Hwrite |]]].
  exact (proj1 (saved_results_are_board_solver_results (demo_world true) "outFile.txt" 2
                  aspectRatio (demo_store five_frames) Hok Hn Hwrite)).
Defined.

(** X18: when the fix-aspect-ratio flag is not set, the marker solver is
    called with an empty camera matrix; its distortion coefficients are
    empty whatever the flags. *)
Theorem unseeded_camera_matrix_is_empty W out flags r st :
  store_ok st ->
  (0 < length (allCorners st))%nat ->
  exists cameraMatrix rest,
    trace (calibrate W out flags r st)
    = CallCalibrateCameraAruco (concat (allCorners st)) (concat (allIds st))
        (marker_counts (allCorners st)) (imgSize st) cameraMatrix [] flags
      :: rest
    /\ (flag_set flags CALIB_FIX_ASPECT_RATIO = false -> cameraMatrix = []).
Proof.
  intros Hok Hpos. rewrite (calibrate_spec W out flags r st Hok).
  unfold calibrate_trace, trace, fst, stageA_call.
  exists (seeded_matrix flags r).
  destruct (Nat.eqb_spec (length (allCorners st)) 0); [lia |].
  destruct (length (allCorners st) <? 4)%nat; [| destruct (can_write W out)];
    (eexists; split; [reflexivity |]);
    intros Hflag; unfold seeded_matrix; rewrite Hflag; reflexivity.
Qed.

Lemma unseeded_camera_matrix_is_empty_witness :
  store_ok (demo_store three_frames)
  /\ (0 < length (allCorners (demo_store three_frames)))%nat
  /\ exists cameraMatrix rest,
       trace (calibrate (demo_world true) "outFile.txt" 0 aspectRatio
                (demo_store three_frames))
       = CallCalibrateCameraAruco (concat (allCorners (demo_store three_frames)))
           (concat (allIds (demo_store three_frames)))
           (marker_counts (allCorners (demo_store three_frames)))
           (imgSize (demo_store three_frames)) cameraMatrix [] 0
         :: rest
       /\ (flag_set 0 CALIB_FIX_ASPECT_RATIO = false -> cameraMatrix = []).
Proof.
  assert (Hok : store_ok (demo_store three_frames)) by (apply demo_store_ok; reflexivity).
  assert (Hpos : (0 < length (allCorners (demo_store three_frames)))%nat) by (cbn; lia).
  split; [exact Hok | split; [exact Hpos |]].
  apply (unseeded_camera_matrix_is_empty (demo_world true) "outFile.txt" 0 aspectRatio
           (demo_store three_frames) Hok Hpos).
Defined.

(** X19: the loop of Stage B filters nothing: [filteredImages] holds every
    image of the store, and the corner and identifier collections hold
    what interpolation yields for every frame, all in frame order. *)
Theorem filtered_images_are_all_images W st K D :
  store_ok st ->
  interpolate_frames W st (int_of_size (length (allCorners st))) K D
  = mret ((interpolated W K D st).*1, (interpolated W K D st).*2, allImgs st)
  /\ length (interpolated W K D st) = length (allImgs st)
  /\ forall i c idc img,
       allCorners st !! i = Some c -> allIds st !! i = Some idc ->
       allImgs st !! i = Some img ->
       interpolated W K D st !! i = Some (interpolateCornersCharuco W c idc img K D).
Proof.
  intros (Hagree & Himgs & Hfit).
  pose proof (Forall2_length _ _ _ Hagree) as Hids.
  assert (Hlen : length (interpolated W K D st) = length (allCorners st)).
  { unfold interpolated. rewrite length_fmap. apply length_frames; lia. }
  split; [| split].
  - rewrite int_of_size_small by exact Hfit.
    rewrite interpolate_frames_spec by lia.
    rewrite !take_ge by lia. reflexivity.
  - lia.
  - intros i c idc img Hc Hi Him. unfold interpolated.
    rewrite list_lookup_fmap, (frames_lookup st i c idc img Hc Hi Him). reflexivity.
Qed.

Lemma filtered_images_are_all_images_witness :
  store_ok (demo_store four_frames)
  /\ interpolate_frames (demo_world true) (demo_store four_frames)
       (int_of_size (length (allCorners (demo_store four_frames))))
       (demo_matrix 800%float) []
     = mret ((interpolated (demo_world true) (demo_matrix 800%float) []
                (demo_store four_frames)).*1,
             (interpolated (demo_world true) (demo_matrix 800%float) []
                (demo_store four_frames)).*2,
             allImgs (demo_store four_frames)).
Proof.
  assert (Hok : store_ok (demo_store four_frames)) by (apply demo_store_ok; reflexivity).
  split; [exact Hok |].
  exact (proj1 (filtered_images_are_all_images (demo_world true) (demo_store four_frames)
                  (demo_matrix 800%float) [] Hok)).
Defined.

(** * The display loop *)

Lemma all_shown_lookup (imgs : list Image) (ids : list (list Z))
    (cs : list CharucoCorners) (cis : list CharucoIds) (k : nat) img i c ci :
  imgs !! k = Some img -> ids !! k = Some i -> cs !! k = Some c -> cis !! k = Some ci ->
  all_shown imgs ids cs cis !! k = Some (mkShown img (overlay_of i c ci)).
Proof.
  revert imgs ids cs cis.
  induction k as [| k IH]; intros [| img' imgs] [| i' ids] [| c' cs] [| ci' cis];
    try discriminate; cbn [all_shown].
  - intros [= ->] [= ->] [= ->] [= ->]. reflexivity.
  - intros Himg Hi Hc Hci. apply IH; assumption.
Qed.

Lemma all_shown_images (imgs : list Image) (ids : list (list Z))
    (cs : list CharucoCorners) (cis : list CharucoIds) :
  length ids = length imgs -> length cs = length imgs -> length cis = length imgs ->
  shown_image <$> all_shown imgs ids cs cis = imgs.
Proof.
  revert ids cs cis.
  induction imgs as [| img imgs IH]; intros [| i ids] [| c cs] [| ci cis];
    try discriminate; cbn [all_shown length]; intros Hi Hc Hci.
  - reflexivity.
  - rewrite fmap_cons, IH by lia. reflexivity.
Qed.

(** The loop in closed form, on vectors of one length. *)
Lemma show_loop_spec (imgs : list Image) (ids : list (list Z))
    (cs : list CharucoCorners) (cis : list CharucoIds) (n frame : nat)
    (keys : list Z) (shown : list Shown) :
  length ids = length imgs -> length cs = length imgs -> length cis = length imgs ->
  (frame + n = length imgs)%nat ->
  show_loop n frame imgs ids cs cis keys shown
  = Some (shown ++ take (shown_count n keys) (drop frame (all_shown imgs ids cs cis))).
Proof.
  intros Hi Hc Hci. revert frame keys shown.
  induction n as [| n IH]; intros frame keys shown Hn; cbn [show_loop shown_count].
  - rewrite take_0, app_nil_r. reflexivity.
  - destruct (lookup_lt_is_Some_2 imgs frame ltac:(lia)) as [img Himg].
    destruct (lookup_lt_is_Some_2 ids frame ltac:(lia)) as [i Hid].
    destruct (lookup_lt_is_Some_2 cs frame ltac:(lia)) as [c Hcs].
    destruct (lookup_lt_is_Some_2 cis frame ltac:(lia)) as [ci Hcis].
    rewrite (drop_S _ _ _ (all_shown_lookup _ _ _ _ _ _ _ _ _ Himg Hid Hcs Hcis)).
    rewrite Himg. cbn [mbind option_bind]. rewrite Hid. cbn [mbind option_bind].
    unfold CharucoCorners, CharucoIds in *.
    rewrite Hcs. cbn [mbind option_bind]. rewrite Hcis. cbn [mbind option_bind].
    assert (Hdrawn :
      (if int_of_size (length i) >? 0
       then if (0 <? length c)%nat then Some (Some (c, ci)) else Some None
       else Some None) = Some (overlay_of i c ci)).
    { unfold overlay_of.
      destruct (int_of_size (length i) >? 0), (0 <? length c)%nat; reflexivity. }
    rewrite Hdrawn. cbn [mbind option_bind].
    destruct (to_char (hd (-1) keys) =? 27).
    + reflexivity.
    + rewrite IH by lia. cbn [take]. rewrite <- app_assoc. reflexivity.
Qed.

Lemma shown_count_no_escape (n : nat) (keys : list Z) :
  Forall (fun k => to_char k <> 27) keys -> shown_count n keys = n.
Proof.
  revert keys. induction n as [| n IH]; intros keys Hkeys; cbn [shown_count].
  - reflexivity.
  - destruct Hkeys as [| k keys Hk Hkeys]; cbn [hd tl].
    + rewrite IH by constructor. reflexivity.
    + destruct (Z.eqb_spec (to_char k) 27); [contradiction |].
      rewrite IH by exact Hkeys. reflexivity.
Qed.

Lemma shown_count_escape (n : nat) (pre post : list Z) (esc : Z) :
  Forall (fun k => to_char k <> 27) pre -> to_char esc = 27 ->
  (length pre < n)%nat ->
  shown_count n (pre ++ esc :: post) = Datatypes.S (length pre).
Proof.
  intros Hpre Hesc. revert n.
  induction Hpre as [| k pre Hk _ IH]; intros [| n] Hn; cbn [length] in Hn; try lia;
    cbn [shown_count app hd tl length].
  - rewrite Hesc. reflexivity.
  - destruct (Z.eqb_spec (to_char k) 27); [contradiction |].
    rewrite IH by lia. reflexivity.
Qed.

(** X20: when ESC is not pressed, the display loop shows every frame once,
    in frame order; the board corners are drawn over a frame exactly when
    the frame has an identifier and interpolation yielded a corner for it,
    and a frame without corners is shown bare, not skipped.  When
    [showChessboardCorners] is false nothing is shown. *)
Theorem display_shows_every_frame
    (imgs : list Image) (ids : list (list Z))
    (cs : list CharucoCorners) (cis : list CharucoIds) (keys : list Z) :
  length ids = length imgs -> length cs = length imgs -> length cis = length imgs ->
  Forall (fun k => to_char k <> 27) keys ->
  exists shown,
    show_corners true imgs ids cs cis keys = Some shown
    /\ shown_image <$> shown = imgs
    /\ (forall k img i c ci,
          imgs !! k = Some img -> ids !! k = Some i ->
          cs !! k = Some c -> cis !! k = Some ci ->
          shown !! k
          = Some (mkShown img
                    (if (int_of_size (length i) >? 0) && (0 <? length c)%nat
                     then Some (c, ci) else None)))
    /\ show_corners false imgs ids cs cis keys = Some [].
Proof.
  intros Hi Hc Hci Hkeys. exists (all_shown imgs ids cs cis).
  split; [| split; [| split]].
  - unfold show_corners. rewrite show_loop_spec by (assumption || lia).
    rewrite shown_count_no_escape by exact Hkeys.
    cbn [app drop]. apply f_equal, take_ge.
    rewrite <- (length_fmap shown_image), all_shown_images by assumption. lia.
  - apply all_shown_images; assumption.
  - intros k img i c ci Himg Hid Hcs Hcis.
    apply (all_shown_lookup _ _ _ _ _ _ _ _ _ Himg Hid Hcs Hcis).
  - reflexivity.
Qed.

(** The frames of the sample store with what interpolation yields for
    them; the second has no board corner. *)
Lemma display_shows_every_frame_witness :
  length (allIds (demo_store four_frames)) = length (allImgs (demo_store four_frames))
  /\ Forall (fun k => to_char k <> 27) [-1; 99; 32]
  /\ exists shown,
       show_corners true (allImgs (demo_store four_frames)) (allIds (demo_store four_frames))
         (board_corners (demo_world true) 2 aspectRatio (demo_store four_frames)).*1
         (board_corners (demo_world true) 2 aspectRatio (demo_store four_frames)).*2
         [-1; 99; 32]
       = Some shown
       /\ shown_image <$> shown = allImgs (demo_store four_frames)
       /\ shown_corners <$> shown
          = [ Some ([demo_point 0], [0]); None;
              Some ([demo_point 0; demo_point 1], [0; 1]); Some ([demo_point 0], [0]) ].
Proof.
  assert (Hkeys : Forall (fun k => to_char k <> 27) [-1; 99; 32]).
  { repeat constructor; intros H; vm_compute in H; discriminate H. }
  assert (Hc : length (board_corners (demo_world true) 2 aspectRatio
                         (demo_store four_frames)).*1
               = length (allImgs (demo_store four_frames))) by (vm_compute; reflexivity).
  assert (Hci : length (board_corners (demo_world true) 2 aspectRatio
                          (demo_store four_frames)).*2
                = length (allImgs (demo_store four_frames))) by (vm_compute; reflexivity).
  split; [reflexivity | split; [exact Hkeys |]].
  destruct (display_shows_every_frame
              (allImgs (demo_store four_frames)) (allIds (demo_store four_frames))
              (board_corners (demo_world true) 2 aspectRatio (demo_store four_frames)).*1
              (board_corners (demo_world true) 2 aspectRatio (demo_store four_frames)).*2
              [-1; 99; 32] eq_refl Hc Hci Hkeys)
    as (shown & Heq & Himgs & _).
  exists shown. split; [exact Heq | split; [exact Himgs |]].
  vm_compute in Heq. injection Heq as <-. vm_compute. reflexivity.
Defined.

(** X21: when ESC is pressed while a frame is shown, the display loop ends
    there: that frame has been shown, after those before it, and no later
    frame is. *)
Theorem display_stops_at_escape
    (imgs : list Image) (ids : list (list Z))
    (cs : list CharucoCorners) (cis : list CharucoIds)
    (pre post : list Z) (esc : Z) :
  length ids = length imgs -> length cs = length imgs -> length cis = length imgs ->
  Forall (fun k => to_char k <> 27) pre ->
  to_char esc = 27 ->
  (length pre < length imgs)%nat ->
  exists shown,
    show_corners true imgs ids cs cis (pre ++ esc :: post) = Some shown
    /\ shown_image <$> shown = take (Datatypes.S (length pre)) imgs
    /\ show_corners true imgs ids cs cis (pre ++ esc :: post)
       = show_corners true imgs ids cs cis (pre ++ [esc]).
Proof.
  intros Hi Hc Hci Hpre Hesc Hlen.
  exists (take (Datatypes.S (length pre)) (all_shown imgs ids cs cis)).
  unfold show_corners. rewrite !show_loop_spec by (assumption || lia).
  rewrite !shown_count_escape by assumption.
  cbn [app drop]. split; [reflexivity | split; [| reflexivity]].
  rewrite fmap_take, all_shown_images by assumption. reflexivity.
Qed.

Lemma display_stops_at_escape_witness :
  length (allIds (demo_store four_frames)) = length (allImgs (demo_store four_frames))
  /\ Forall (fun k => to_char k <> 27) [-1]
  /\ to_char 27 = 27
  /\ (length [(-1)%Z] < length (allImgs (demo_store four_frames)))%nat
  /\ exists shown,
       show_corners true (allImgs (demo_store four_frames)) (allIds (demo_store four_frames))
         (board_corners (demo_world true) 2 aspectRatio (demo_store four_frames)).*1
         (board_corners (demo_world true) 2 aspectRatio (demo_store four_frames)).*2
         ([-1] ++ 27 :: [99; 99])
       = Some shown
       /\ shown_image <$> shown = take 2 (allImgs (demo_store four_frames)).
Proof.
  assert (Hkeys : Forall (fun k => to_char k <> 27) [-1]).
  { repeat constructor; intros H; vm_compute in H; discriminate H. }
  assert (Hlen : (length [(-1)%Z] < length (allImgs (demo_store four_frames)))%nat)
    by (cbn; lia).
  assert (Hc : length (board_corners (demo_world true) 2 aspectRatio
                         (demo_store four_frames)).*1
               = length (allImgs (demo_store four_frames))) by (vm_compute; reflexivity).
  assert (Hci : length (board_corners (demo_world true) 2 aspectRatio
                          (demo_store four_frames)).*2
                = length (allImgs (demo_store four_frames))) by (vm_compute; reflexivity).
  split; [reflexivity | split; [exact Hkeys | split; [reflexivity | split; [exact Hlen |]]]].
  destruct (display_stops_at_escape
              (allImgs (demo_store four_frames)) (allIds (demo_store four_frames))
              (board_corners (demo_world true) 2 aspectRatio (demo_store four_frames)).*1
              (board_corners (demo_world true) 2 aspectRatio (demo_store four_frames)).*2
              [-1] [99; 99] 27 eq_refl Hc Hci Hkeys eq_refl Hlen)
    as (shown & Heq & Himgs & _).
  exists shown. split; [exact Heq | exact Himgs].
Defined.
